(** * TaskManager: the JSON-file task store (src/DB/db.ts) and the Task class
    (src/tasks/task.ts), embedded in Rocq.

    The store is one file that holds a JSON array of tasks.  Every operation
    of [DB] reads the whole file, works on the array in memory and writes the
    whole array back.  The embedding keeps that shape:

    - the world is the file named by [DB_FILE] (absent, or its text), a flag
      telling whether the disk accepts writes, and the list of [fs] calls made
      so far;
    - an operation is a function from a world to an outcome (a returned value
      or a thrown error) and the world it leaves;
    - the JavaScript runtime the code calls into ([JSON.parse],
      [JSON.stringify], the string-to-number coercion of [Number], the
      messages of native errors, the value of [process.env.DB_FILE]) is an
      interface, [Runtime]; the two facts about it that the proofs use are
      collected in [RuntimeLaws].  A reference instance, [RefRuntime.node],
      implements the interface on the store's own file format and is proved
      to satisfy the laws.

    Scope of the model.  Numbers are the integers, [Int z], and [NonInt],
    which stands for every other number value (fractions, NaN, the
    infinities) and keeps only its sign test.  The one sum the source
    computes, the id of the last task plus one in [saveTask], is the integer
    sum here; it is the sum of the source, which adds doubles, whenever that
    id is a safe integer (at most 2^53 - 1 in absolute value), while for the
    id 2^53 the source gets 2^53 back.  The statements about the id of a new
    task in an arbitrary store therefore carry the hypothesis [last_id_safe];
    in a store built up from an absent file no id exceeds the number of calls
    made.  The parsed file is typed [Task[]] by the source
    (an unchecked cast); the model trusts that annotation for arrays, so a
    stored task has an integer [id], a string [title] and a boolean
    [completed].  A character of a [string] stands for one UTF-16 code unit.
    Console output (console.log, console.error) is not modelled.

    Beyond the DB class and the instances of the Task class, the file embeds
    the static getters of the Task class, the reader of an earlier db.ts
    ([Legacy]) and the command line ([Action], [Index]), where the one thing
    a run shows last stands as the value the run returns. *)

From Stdlib Require Import ZArith String Ascii List Lia Bool.
From Stdlib Require Import Decimal DecimalString DecimalPos DecimalZ.
From stdpp Require Import base decidable option list numbers strings.

Local Open Scope string_scope.
Local Open Scope Z_scope.

(** ** JavaScript values the code handles *)

(** A value of type [number]. *)
Inductive number : Type :=
  | Int (z : Z)
  | NonInt (below_zero : bool).

Global Instance number_eq_dec : EqDecision number.
Proof. solve_decision. Defined.

Module Number.

(** [Number.isInteger(n)] *)
Definition isInteger (n : number) : bool :=
  match n with
  | Int _ => true
  | NonInt _ => false
  end.

(** [n < 0] *)
Definition lt0 (n : number) : bool :=
  match n with
  | Int z => z <? 0
  | NonInt b => b
  end.

(** [n <= 0]: a number that is not an integer is not zero. *)
Definition le0 (n : number) : bool :=
  match n with
  | Int z => z <=? 0
  | NonInt b => b
  end.

End Number.

(** src/types/task.ts, the interface of a stored task:
    [{ id: number, title: string, completed: boolean }]. *)
Module TaskType.

Record t : Type := mk { id : Z; title : string; completed : bool }.

Global Instance eq_dec : EqDecision t.
Proof. solve_decision. Defined.

End TaskType.

(** What [JSON.parse] hands to the code: an array, which the source types
    [Task[]], or a value for which [Array.isArray] is false. *)
Inductive json : Type :=
  | JArray (data : list TaskType.t)
  | JOther.

(** ** Errors *)

(** Errors raised by the runtime rather than by a [throw] of the source. *)
Inductive native_error : Type :=
  | ENOENT                        (* fs.readFileSync: no such file *)
  | EACCES                        (* fs.writeFileSync: the write is refused *)
  | SyntaxError (text : string)   (* JSON.parse *)
  | TypeError.                    (* a member of a non-array used as an array's *)

Inductive exn : Type :=
  | Error (message : string)      (* throw new Error(message) *)
  | Native (e : native_error).

(** ** The world: one file and the calls made on it *)

Inductive fs_call : Type :=
  | existsSync_call
  | readFileSync_call
  | writeFileSync_call (data : string).

Record World : Type := mkWorld {
  file : option string;     (* None: the file does not exist *)
  writable : bool;          (* whether fs.writeFileSync succeeds *)
  calls : list fs_call      (* oldest first *)
}.

Definition record_call (c : fs_call) (w : World) : World :=
  {| file := file w; writable := writable w; calls := calls w ++ [c] |}.

(** ** Computations: state passing with exceptions *)

Inductive outcome (A : Type) : Type :=
  | Return (a : A)
  | Throw (e : exn).

Arguments Return {A} a.
Arguments Throw {A} e.

Definition M (A : Type) : Type := World -> outcome A * World.

Definition ret {A} (a : A) : M A := fun w => (Return a, w).

Definition throw {A} (e : exn) : M A := fun w => (Throw e, w).

Definition bind {A B} (m : M A) (k : A -> M B) : M B :=
  fun w =>
    match m w with
    | (Return a, w') => k a w'
    | (Throw e, w') => (Throw e, w')
    end.

(** [try { m } catch (error) { handler }] *)
Definition try_catch {A} (m : M A) (handler : exn -> M A) : M A :=
  fun w =>
    match m w with
    | (Return a, w') => (Return a, w')
    | (Throw e, w') => handler e w'
    end.

Declare Scope js_scope.
Delimit Scope js_scope with js.
Notation "x <- m ; k" := (bind m (fun x => k))
  (at level 20, m at level 100, k at level 200, only parsing) : js_scope.
Local Open Scope js_scope.

(** ** The runtime interface *)

Class Runtime : Type := {
  (** [process.env.DB_FILE], checked to be set when the module loads *)
  filename : string;
  (** [JSON.parse(text)]; [None] when it throws a SyntaxError *)
  JSON_parse : string -> option json;
  (** [JSON.stringify(data, null, space)] on an array *)
  JSON_stringify : list TaskType.t -> nat -> string;
  (** [Number(s)] on a string *)
  StringToNumber : string -> number;
  (** [error.message] of a native error *)
  native_message : native_error -> string
}.

(** What the proofs assume of the runtime: a serialized array parses back to
    itself, and the literal the code writes into a fresh file is the empty
    array. *)
Class RuntimeLaws (R : Runtime) : Prop := {
  parse_stringify :
    forall (data : list TaskType.t) (space : nat),
      JSON_parse (JSON_stringify data space) = Some (JArray data);
  parse_empty_literal : JSON_parse "[]" = Some (JArray [])
}.

(** [error.message] *)
Definition message `{Runtime} (error : exn) : string :=
  match error with
  | Error m => m
  | Native e => native_message e
  end.

(** An argument typed [number | string]. *)
Inductive id_arg : Type :=
  | IdNumber (n : number)
  | IdString (s : string).

(** [Number(id)] *)
Definition to_number `{Runtime} (id : id_arg) : number :=
  match id with
  | IdNumber n => n
  | IdString s => StringToNumber s
  end.

(** ** The [fs] calls of the source, on the file [filename] *)
Module fs.

Definition existsSync : M bool :=
  fun w =>
    (Return (match file w with Some _ => true | None => false end),
     record_call existsSync_call w).

Definition readFileSync : M string :=
  fun w =>
    match file w with
    | Some text => (Return text, record_call readFileSync_call w)
    | None => (Throw (Native ENOENT), record_call readFileSync_call w)
    end.

Definition writeFileSync (data : string) : M unit :=
  fun w =>
    if writable w
    then (Return tt,
          {| file := Some data; writable := true;
             calls := calls w ++ [writeFileSync_call data] |})
    else (Throw (Native EACCES), record_call (writeFileSync_call data) w).

End fs.

Module JSON.

(** [JSON.parse(text)] as a computation *)
Definition parse `{Runtime} (text : string) : M json :=
  match JSON_parse text with
  | Some v => ret v
  | None => throw (Native (SyntaxError text))
  end.

(** Using [data] as an array ([data.find], [data.length - 1] and so on):
    a TypeError when it is none. *)
Definition as_array (data : json) : M (list TaskType.t) :=
  match data with
  | JArray l => ret l
  | JOther => throw (Native TypeError)
  end.

End JSON.

(** ** src/DB/db.ts *)
Module DB.
Section WithRuntime.
Context `{R : Runtime}.

(** The object literal [{ id: finalId, title, completed }] *)
Definition new_task (finalId : Z) (title : string) (completed : bool) : TaskType.t :=
  {| TaskType.id := finalId; TaskType.title := title; TaskType.completed := completed |}.

(** [existingTask.title = title; existingTask.completed = completed]:
    the two assignments through the reference that [find] returned. *)
Definition overwrite (title : string) (completed : bool) (existingTask : TaskType.t)
  : TaskType.t :=
  {| TaskType.id := TaskType.id existingTask;
     TaskType.title := title;
     TaskType.completed := completed |}.

Definition DBExists : M bool := fs.existsSync.

Definition createDB : M bool :=
  present <- fs.existsSync ;
  if (present : bool) then ret false
  else
    try_catch
      (_ <- fs.writeFileSync "[]" ; ret true)
      (fun _ => throw (Error ("Cannot write to " +:+ filename))).

Definition resetDB : M bool :=
  try_catch
    (_ <- fs.writeFileSync "[]" ; ret true)
    (fun _ => throw (Error ("Cannot write to " +:+ filename))).

Definition getTaskByID (id : id_arg) : M (option TaskType.t) :=
  present <- DBExists ;
  if negb present then
    try_catch
      (_ <- createDB ; ret None)
      (fun error => throw (Error (message error)))
  else
    try_catch
      (raw <- fs.readFileSync ;
       parsed <- JSON.parse raw ;
       data <- JSON.as_array parsed ;
       (* data.find((t) => t.id === Number(id)); task || null *)
       ret (snd <$> list_find (fun t => Int (TaskType.id t) = to_number id) data))
      (fun error => throw (Error ("Syntax error in DB file. " +:+ message error))).

Definition getTaskByTitle (title : string) : M (option TaskType.t) :=
  present <- DBExists ;
  if negb present then
    try_catch
      (_ <- createDB ; ret None)
      (fun error => throw (Error (message error)))
  else
    try_catch
      (raw <- fs.readFileSync ;
       parsed <- JSON.parse raw ;
       data <- JSON.as_array parsed ;
       ret (snd <$> list_find (fun t => TaskType.title t = title) data))
      (fun error => throw (Error ("Syntax error in DB file. " +:+ message error))).

Definition getAllTasks : M (list TaskType.t) :=
  present <- DBExists ;
  if negb present then
    _ <- createDB ; ret []
  else
    try_catch
      (raw <- fs.readFileSync ;
       parsed <- JSON.parse raw ;
       (* Array.isArray(data) ? data : [] *)
       ret (match parsed with JArray data => data | JOther => [] end))
      (fun error => throw (Error ("Syntax error in DB file. " +:+ message error))).

(** [saveTask(id = 0, title, completed = false)].  [id = Number(id)] leaves a
    number as it is, and [typeof title !== "string"] is false for a string.
    A parsed file that is no array makes the first array access of either
    branch throw a TypeError, before any write; [JSON.as_array] raises it
    where the branches start.  The sum for [finalId] is the integer sum: the
    sum of the source while the id of the last task is a safe integer (see
    the note on the scope of the model). *)
Definition saveTask (id : number) (title : string) (completed : bool) : M number :=
  if Number.lt0 id || negb (Number.isInteger id) then
    throw (Error "id must be an integer and greater than or equal to zero.")
  else if (String.length title <? 3)%nat then
    throw (Error "title must be a string and at least three characters long.")
  else
    present <- DBExists ;
    parsed <- (if (present : bool)
               then raw <- fs.readFileSync ; JSON.parse raw
               else _ <- createDB ; ret (JArray [])) ;
    data <- JSON.as_array parsed ;
    if bool_decide (id = Int 0) then
      (* data.length > 0 ? data[data.length - 1].id + 1 : 1 *)
      let finalId :=
        match last data with
        | Some t => TaskType.id t + 1
        | None => 1
        end in
      match list_find (fun t => TaskType.title t = title) data with
      | Some _ => throw (Error "A task with this title already exists.")
      | None =>
          _ <- fs.writeFileSync
                 (JSON_stringify (data ++ [new_task finalId title completed]) 2) ;
          ret (Int finalId)
      end
    else
      match list_find (fun t => Int (TaskType.id t) = id) data with
      | None => throw (Error "Task not found")
      | Some (i, existingTask) =>
          match list_find
                  (fun t => TaskType.title t = title /\ Int (TaskType.id t) <> id)
                  data with
          | Some _ => throw (Error "Another task already has this title.")
          | None =>
              _ <- fs.writeFileSync
                     (JSON_stringify
                        (<[i := overwrite title completed existingTask]> data) 2) ;
              ret id
          end
      end.

(** The argument of [insertBulkData], typed [string | Array<Task>]. *)
Inductive bulk : Type :=
  | BulkText (text : string)
  | BulkArray (tasks : list TaskType.t).

Definition insertBulkData (data : bulk) : M unit :=
  parsed <- match data with
            | BulkText text =>
                try_catch (JSON.parse text)
                  (fun _ => throw (Error "Invalid data: Could not parse JSON string."))
            | BulkArray tasks => ret (JArray tasks)
            end ;
  match parsed with
  | JOther => throw (Error "Invalid data: Must be an array of Task objects.")
  | JArray tasks =>
      let json := JSON_stringify tasks 2 in
      try_catch
        (fs.writeFileSync json)
        (fun _ => throw (Error "Cannot write to DB file."))
  end.

Definition deleteTaskByID (id : id_arg) : M bool :=
  let id := to_number id in
  if negb (Number.isInteger id) || Number.le0 id then
    throw (Error "task id must be a positive integer")
  else
    data <- try_catch
              (raw <- fs.readFileSync ;
               (* raw ? JSON.parse(raw) : [] *)
               parsed <- (if bool_decide (raw = EmptyString) then ret (JArray [])
                          else JSON.parse raw) ;
               match parsed with
               | JArray data => ret data
               | JOther => throw (Error "DB file is not in expected format")
               end)
              (fun error => throw (Error ("Cannot read DB file: " +:+ message error))) ;
    let initialLength := length data in
    let data := filter (fun task => Int (TaskType.id task) <> id) data in
    if bool_decide (length data = initialLength) then
      ret false
    else
      try_catch
        (_ <- fs.writeFileSync (JSON_stringify data 4) ; ret true)
        (fun error => throw (Error ("Cannot write to DB file: " +:+ message error))).

End WithRuntime.
End DB.

(** ** src/tasks/task.ts: the Task class *)
Module Task.
Section WithRuntime.
Context `{R : Runtime}.

(** The private fields [#id], [#title], [#completed]. *)
Record t : Type := mk { id : number; title : string; completed : bool }.

(** [set title(value)] *)
Definition set_title (value : string) (this : t) : M t :=
  if (String.length value <? 3)%nat then
    throw (Error "Title must be a string and contain at least 3 characters")
  else ret {| id := id this; title := value; completed := completed this |}.

(** [set completed(value)] *)
Definition set_completed (value : bool) (this : t) : M t :=
  ret {| id := id this; title := title this; completed := value |}.

(** [new Task(title, completed = false)]: [#id] starts at 0, [#completed] at
    false, and the two setters run. *)
Definition new (title_ : string) (completed_ : bool) : M t :=
  this <- set_title title_ {| id := Int 0; title := EmptyString; completed := false |} ;
  set_completed completed_ this.

(** [setId(id)] *)
Definition setId (id_ : number) (this : t) : t :=
  {| id := id_; title := title this; completed := completed this |}.

(** [save()]: the handler prints the message and throws the error again. *)
Definition save (this : t) : M t :=
  try_catch
    (id_ <- DB.saveTask (id this) (title this) (completed this) ;
     ret (setId id_ this))
    (fun error => throw error).

(** [const item = new Task(task.title, task.completed); item.setId(id)]:
    the instance the static getters build from a stored record. *)
Definition revive (id_ : number) (task : TaskType.t) : M t :=
  item <- new (TaskType.title task) (TaskType.completed task) ;
  ret (setId id_ item).

(** [static getTaskById(id: number)]: the instance takes the id that was
    asked for. *)
Definition getTaskById (id_ : number) : M (option t) :=
  task <- DB.getTaskByID (IdNumber id_) ;
  match task with
  | Some task => item <- revive id_ task ; ret (Some item)
  | None => ret None
  end.

(** [static getTaskByTitle(title: string)]: the instance takes the id of the
    stored record. *)
Definition getTaskByTitle (title_ : string) : M (option t) :=
  task <- DB.getTaskByTitle title_ ;
  match task with
  | Some task => item <- revive (Int (TaskType.id task)) task ; ret (Some item)
  | None => ret None
  end.

(** The loop [for (const task of tasks) { ...; items.push(item) }]. *)
Fixpoint revive_all (tasks : list TaskType.t) (items : list t) : M (list t) :=
  match tasks with
  | [] => ret items
  | task :: rest =>
      item <- revive (Int (TaskType.id task)) task ;
      revive_all rest (items ++ [item])
  end.

(** What [static getAllTasks(rawObject = false)] returns, typed
    [Task[] | TaskType[]]. *)
Inductive listing : Type :=
  | Raw (tasks : list TaskType.t)
  | Instances (items : list t).

(** [DB.getAllTasks() ?? []]: [DB.getAllTasks] returns an array, never null or
    undefined, so the default is not taken. *)
Definition getAllTasks (rawObject : bool) : M listing :=
  tasks <- DB.getAllTasks ;
  if rawObject then ret (Raw tasks)
  else items <- revive_all tasks [] ; ret (Instances items).

End WithRuntime.
End Task.

(** ** An earlier db.ts (src/unnamed/part_001 and part_002)

    The two files hold earlier states of the DB class.  Their [createDB],
    [resetDB], [DBExists], [getTaskByID] and [getTaskByTitle] are those of
    src/DB/db.ts; the reader of the whole collection is another one. *)
Module Legacy.
Section WithRuntime.
Context `{R : Runtime}.

(** [static getAllTask(): Task[] | null]: null for a file that had to be
    created, and otherwise whatever [JSON.parse] gives, array or not.  (In
    part_002 the call of [createDB] sits in a [try] whose handler throws
    [new Error(error.message)], an error with the same message.) *)
Definition getAllTask : M (option json) :=
  present <- DB.DBExists ;
  if negb present then
    try_catch
      (_ <- DB.createDB ; ret None)
      (fun error => throw (Error (message error)))
  else
    try_catch
      (raw <- fs.readFileSync ;
       data <- JSON.parse raw ;
       ret (Some data))
      (fun error => throw (Error ("Syntax error in DB file. " +:+ message error))).

End WithRuntime.
End Legacy.

(** ** src/action/action.ts *)
Module Action.
Section WithRuntime.
Context `{R : Runtime}.

(** What [list] hands to the console as its last step: the argument of
    [console.table], or the text it passes through the warning style to
    [console.log].  (What [DB.createDB] logs on the way is, like all console
    output of the DB class, not part of the model.) *)
Inductive shown : Type :=
  | Table (tasks : Task.listing)
  | Warning (text : string).

(** [tasks?.length]: whether the array has an element. *)
Definition has_length (tasks : Task.listing) : bool :=
  match tasks with
  | Task.Raw [] | Task.Instances [] => false
  | _ => true
  end.

(** [static list()]: no [try] around the read, so what [Task.getAllTasks]
    throws leaves [list] as it is. *)
Definition list : M shown :=
  tasks <- Task.getAllTasks true ;
  if has_length tasks then ret (Table tasks)
  else ret (Warning "there is not any task").

End WithRuntime.
End Action.

(** ** src/index.ts *)
Module Index.
Section WithRuntime.
Context `{R : Runtime}.

(** The array [commands]. *)
Definition commands : list string :=
  [ "list"; "add"; "delete"; "delete-all"; "edit"; "export"; "import"; "download" ].

(** What a run of the program has put on the console: what [Action.list]
    showed, nothing at all, or the message made of the complaint, the heading
    and the available commands. *)
Inductive shown : Type :=
  | Listed (s : Action.shown)
  | Nothing
  | Usage (complaint heading : string) (available : list string).

(** The top of db.ts, which runs when index.ts imports action.ts and that
    imports db.ts, before any statement of index.ts:
    [if (!filename) throw ...].  An unset variable and an empty one are both
    falsy; the empty [filename] stands for either. *)
Definition load_db : M unit :=
  if bool_decide (filename = EmptyString)
  then throw (Error "DB_FILE is not defined in environment variables.")
  else ret tt.

(** The program, given [process.argv[2]]: [None] when there is no such
    argument.  An empty argument is falsy, like a missing one. *)
Definition main (command : option string) : M shown :=
  _ <- load_db ;
  match command with
  | Some c =>
      if bool_decide (c = EmptyString) then
        ret (Usage "you must enter a command" "available command are:" commands)
      else if bool_decide (c = "list") then
        s <- Action.list ; ret (Listed s)
      else ret Nothing
  | None =>
      ret (Usage "you must enter a command" "available command are:" commands)
  end.

End WithRuntime.
End Index.

(** ** Notions the statements use *)

(** The store holds the collection [data]: the file exists and parses to it. *)
Definition stores `{Runtime} (w : World) (data : list TaskType.t) : Prop :=
  exists raw, file w = Some raw /\ JSON_parse raw = Some (JArray data).

(** The world [w] after the further calls [cs], none of which changed the
    file. *)
Definition after_calls (cs : list fs_call) (w : World) : World :=
  {| file := file w; writable := writable w; calls := calls w ++ cs |}.

(** The calls a refused [saveTask] has added: none when it rejects its
    arguments, the existence test and the read when it refuses after loading
    the array.  Neither contains a write. *)
Definition read_only_calls (cs : list fs_call) : Prop :=
  cs = [] \/ cs = [existsSync_call; readFileSync_call].

(** The world after a successful read-modify-write that left [text]. *)
Definition after_rewrite (text : string) (w : World) : World :=
  {| file := Some text; writable := true;
     calls := calls w ++ [existsSync_call; readFileSync_call; writeFileSync_call text] |}.

Definition ids (data : list TaskType.t) : list Z := TaskType.id <$> data.

(** The array an argument of [insertBulkData] stands for. *)
Definition bulk_denotes `{Runtime} (b : DB.bulk) (tasks : list TaskType.t) : Prop :=
  match b with
  | DB.BulkArray l => l = tasks
  | DB.BulkText text => JSON_parse text = Some (JArray tasks)
  end.

(** The spec's words for the id of a new task: the maximum id among the
    existing tasks, plus one; 1 for the empty collection. *)
Definition max_id_plus_one (data : list TaskType.t) : Z :=
  match ids data with
  | [] => 1
  | z :: zs => fold_right Z.max z zs + 1
  end.

(** What the code takes instead: the id of the last task, plus one. *)
Definition last_id_plus_one (data : list TaskType.t) : Z :=
  match last data with
  | Some t => TaskType.id t + 1
  | None => 1
  end.

(** [Number.isSafeInteger]: the integers from -(2^53 - 1) to 2^53 - 1.  For
    these the sum [z + 1] that the source computes on doubles is the integer
    [z + 1]; for 2^53 the nearest double to the sum is 2^53 itself. *)
Definition safe_integer (z : Z) : Prop := - (2 ^ 53 - 1) <= z <= 2 ^ 53 - 1.

(** The id [saveTask] counts on from, the id of the last stored task, is a
    safe integer, so that [last_id_plus_one] is the id the source computes. *)
Definition last_id_safe (data : list TaskType.t) : Prop :=
  forall t, last data = Some t -> safe_integer (TaskType.id t).

(** Ids in strictly ascending order, the order in which [saveTask] hands
    them out. *)
Fixpoint ascending (zs : list Z) : Prop :=
  match zs with
  | [] => True
  | z :: zs' => Forall (fun z' => z < z') zs' /\ ascending zs'
  end.

Definition titles (data : list TaskType.t) : list string := TaskType.title <$> data.

(** A title the validation of [saveTask] and of the Task class accepts. *)
Definition valid_title (title : string) : Prop := (3 <= String.length title)%nat.

(** The instance of the Task class that holds the fields of a stored record. *)
Definition instance_of (task : TaskType.t) : Task.t :=
  {| Task.id := Int (TaskType.id task);
     Task.title := TaskType.title task;
     Task.completed := TaskType.completed task |}.

(** The stores that [saveTask] and [deleteTaskByID] build from an empty one:
    ids ascending from 1 or above, titles valid and pairwise distinct. *)
Definition well_formed (data : list TaskType.t) : Prop :=
  ascending (ids data) /\
  Forall (fun z => 0 < z) (ids data) /\
  NoDup (titles data) /\
  Forall valid_title (titles data).

(** The error the title setter of the Task class throws. *)
Definition title_error : exn :=
  Error "Title must be a string and contain at least 3 characters".

(** A call of one of the two operations that edit the collection. *)
Inductive request : Type :=
  | Save (id : number) (title : string) (completed : bool)
  | Delete (id : id_arg).

(** The world a call leaves, whether it returned or threw. *)
Definition perform `{Runtime} (q : request) (w : World) : World :=
  match q with
  | Save id title completed => snd (DB.saveTask id title completed w)
  | Delete id => snd (DB.deleteTaskByID id w)
  end.

(** The world after a series of calls, the first of the list first. *)
Definition perform_all `{Runtime} (qs : list request) (w : World) : World :=
  fold_left (fun w q => perform q w) qs w.

(** The file is absent, or holds a collection of the kind [saveTask] and
    [deleteTaskByID] build. *)
Definition sound `{Runtime} (w : World) : Prop :=
  file w = None \/ exists data, stores w data /\ well_formed data.

(** The world after one write, with no call before it, that left [text]. *)
Definition after_write (text : string) (w : World) : World :=
  {| file := Some text; writable := true;
     calls := calls w ++ [writeFileSync_call text] |}.

(** The world after the file was created empty and then rewritten with
    [text]. *)
Definition after_create_and_write (text : string) (w : World) : World :=
  {| file := Some text; writable := true;
     calls := calls w ++ [existsSync_call; existsSync_call;
                          writeFileSync_call "[]"; writeFileSync_call text] |}.

(** ** A reference runtime

    An instance of [Runtime] on the file format the store writes: a JSON
    array of records with the keys [id], [title], [completed], in that order,
    with integer ids.  [stringify] lays the array out as
    [JSON.stringify(data, null, space)] does; [parse] reads that format back
    with arbitrary JSON whitespace between the tokens.  Texts outside the
    format (records of another shape, numbers with a fraction or an exponent,
    escapes beyond U+00FF) are outside the model, and this instance reports
    them the way it reports malformed text. *)
Module RefRuntime.

Definition LF : ascii := "010"%char.
Definition quote_mark : ascii := "034"%char.
Definition backslash : ascii := "092"%char.

Definition is_ws (c : ascii) : bool :=
  match N_of_ascii c with
  | 9 | 10 | 13 | 32 => true
  | _ => false
  end%N.

Fixpoint skip_ws (s : string) : string :=
  match s with
  | String c s' => if is_ws c then skip_ws s' else s
  | EmptyString => s
  end.

(** *** Serializing *)

Definition hex_digit (n : N) : ascii :=
  ascii_of_N (if n <? 10 then 48 + n else 87 + n)%N.

(** QuoteJSONString, one code unit at a time. *)
Definition escape_char (c : ascii) : string :=
  match N_of_ascii c with
  | 8 => "\b"
  | 9 => "\t"
  | 10 => "\n"
  | 12 => "\f"
  | 13 => "\r"
  | 34 => String backslash (String quote_mark EmptyString)
  | 92 => "\\"
  | n =>
      if n <? 32
      then "\u00" +:+ String (hex_digit (n / 16)) (String (hex_digit (n mod 16)) EmptyString)
      else String c EmptyString
  end%N.

Fixpoint escape (s : string) : string :=
  match s with
  | EmptyString => EmptyString
  | String c s' => escape_char c +:+ escape s'
  end.

Definition quote (s : string) : string :=
  String quote_mark (escape s +:+ String quote_mark EmptyString).

Definition string_of_Z (z : Z) : string :=
  DecimalString.NilZero.string_of_int (Z.to_int z).

Definition string_of_bool (b : bool) : string :=
  if b then "true" else "false".

Fixpoint spaces (n : nat) : string :=
  match n with
  | O => EmptyString
  | S n' => String " " (spaces n')
  end.

(** The line break and indentation before an item at nesting [depth]; the
    gap is [space] blanks, at most ten, and without a gap nothing is
    inserted. *)
Definition newline (space depth : nat) : string :=
  match Nat.min space 10 with
  | O => EmptyString
  | gap => String LF (spaces (gap * depth))
  end.

Definition colon (space : nat) : string :=
  match Nat.min space 10 with
  | O => ":"
  | _ => ": "
  end.

Definition stringify_task (space : nat) (t : TaskType.t) : string :=
  "{" +:+ newline space 2 +:+
  quote "id" +:+ colon space +:+ string_of_Z (TaskType.id t) +:+ "," +:+
  newline space 2 +:+
  quote "title" +:+ colon space +:+ quote (TaskType.title t) +:+ "," +:+
  newline space 2 +:+
  quote "completed" +:+ colon space +:+ string_of_bool (TaskType.completed t) +:+
  newline space 1 +:+ "}".

Fixpoint stringify_items (space : nat) (t : TaskType.t) (rest : list TaskType.t)
  : string :=
  match rest with
  | [] => stringify_task space t +:+ newline space 0 +:+ "]"
  | t' :: rest' =>
      stringify_task space t +:+ "," +:+ newline space 1 +:+
      stringify_items space t' rest'
  end.

Definition stringify (data : list TaskType.t) (space : nat) : string :=
  match data with
  | [] => "[]"
  | t :: rest => "[" +:+ newline space 1 +:+ stringify_items space t rest
  end.

(** *** Parsing *)

Definition hex_value (c : ascii) : option N :=
  let n := N_of_ascii c in
  if (48 <=? n)%N && (n <=? 57)%N then Some (n - 48)%N
  else if (97 <=? n)%N && (n <=? 102)%N then Some (n - 87)%N
  else if (65 <=? n)%N && (n <=? 70)%N then Some (n - 55)%N
  else None.

(** The code unit of [\uh1h2h3h4], when it is below 256. *)
Definition unicode_escape (h1 h2 h3 h4 : ascii) : option ascii :=
  match hex_value h1, hex_value h2, hex_value h3, hex_value h4 with
  | Some 0%N, Some 0%N, Some a, Some b => Some (ascii_of_N (16 * a + b))
  | _, _, _, _ => None
  end.

Definition simple_escape (c : ascii) : option ascii :=
  match N_of_ascii c with
  | 34 => Some quote_mark
  | 92 => Some backslash
  | 47 => Some "/"%char
  | 98 => Some "008"%char
  | 102 => Some "012"%char
  | 110 => Some "010"%char
  | 114 => Some "013"%char
  | 116 => Some "009"%char
  | _ => None
  end%N.

Definition cons_char (c : ascii) (r : option (string * string))
  : option (string * string) :=
  match r with
  | Some (s, rest) => Some (String c s, rest)
  | None => None
  end.

(** The characters of a string literal after its opening quote, up to and
    including the closing quote. *)
Fixpoint parse_chars (s : string) : option (string * string) :=
  match s with
  | EmptyString => None
  | String c s1 =>
      if Ascii.eqb c quote_mark then Some (EmptyString, s1)
      else if Ascii.eqb c backslash then
        match s1 with
        | EmptyString => None
        | String e s2 =>
            match simple_escape e with
            | Some c' => cons_char c' (parse_chars s2)
            | None =>
                if Ascii.eqb e "u" then
                  match s2 with
                  | String h1 (String h2 (String h3 (String h4 s3))) =>
                      match unicode_escape h1 h2 h3 h4 with
                      | Some c' => cons_char c' (parse_chars s3)
                      | None => None
                      end
                  | _ => None
                  end
                else None
            end
        end
      else if (N_of_ascii c <? 32)%N then None
      else cons_char c (parse_chars s1)
  end.

(** A string literal, after optional whitespace. *)
Definition parse_string (s : string) : option (string * string) :=
  match skip_ws s with
  | String c s1 => if Ascii.eqb c quote_mark then parse_chars s1 else None
  | EmptyString => None
  end.

(** The given punctuation mark, after optional whitespace. *)
Definition expect (c : ascii) (s : string) : option string :=
  match skip_ws s with
  | String c' s1 => if Ascii.eqb c c' then Some s1 else None
  | EmptyString => None
  end.

(** The given key, as a string literal. *)
Definition expect_key (key : string) (s : string) : option string :=
  match parse_string s with
  | Some (k, s1) => if String.eqb k key then Some s1 else None
  | None => None
  end.

Definition is_number_char (c : ascii) : bool :=
  let n := N_of_ascii c in
  (n =? 45)%N || ((48 <=? n)%N && (n <=? 57)%N).

(** The longest prefix made of digits and minus signs, and what follows. *)
Fixpoint span_number (s : string) : string * string :=
  match s with
  | String c s' =>
      if is_number_char c
      then let (lexeme, rest) := span_number s' in (String c lexeme, rest)
      else (EmptyString, s)
  | EmptyString => (EmptyString, EmptyString)
  end.

(** The integer a lexeme denotes, when the lexeme is the way that integer is
    written (no leading zeros, no lone sign). *)
Definition Z_of_lexeme (lexeme : string) : option Z :=
  match DecimalString.NilZero.int_of_string lexeme with
  | Some d =>
      let z := Z.of_int d in
      if String.eqb (string_of_Z z) lexeme then Some z else None
  | None => None
  end.

(** An integer literal, after optional whitespace. *)
Definition parse_int (s : string) : option (Z * string) :=
  let (lexeme, rest) := span_number (skip_ws s) in
  match Z_of_lexeme lexeme with
  | Some z => Some (z, rest)
  | None => None
  end.

(** [true] or [false], after optional whitespace. *)
Definition parse_bool (s : string) : option (bool * string) :=
  match skip_ws s with
  | String "t" (String "r" (String "u" (String "e" rest))) => Some (true, rest)
  | String "f" (String "a" (String "l" (String "s" (String "e" rest)))) =>
      Some (false, rest)
  | _ => None
  end.

Definition parse_task (s : string) : option (TaskType.t * string) :=
  s ← expect "{" s;
  s ← expect_key "id" s;
  s ← expect ":" s;
  '(id, s) ← parse_int s;
  s ← expect "," s;
  s ← expect_key "title" s;
  s ← expect ":" s;
  '(title, s) ← parse_string s;
  s ← expect "," s;
  s ← expect_key "completed" s;
  s ← expect ":" s;
  '(completed, s) ← parse_bool s;
  s ← expect "}" s;
  Some (TaskType.mk id title completed, s).

(** The items of a non-empty array and its closing bracket.  Every item takes
    at least one character, so the length of the text is fuel enough. *)
Fixpoint parse_items (fuel : nat) (s : string) : option (list TaskType.t * string) :=
  match fuel with
  | O => None
  | S fuel' =>
      '(t, s1) ← parse_task s;
      match skip_ws s1 with
      | String c s2 =>
          if Ascii.eqb c "," then
            '(rest, s3) ← parse_items fuel' s2;
            Some (t :: rest, s3)
          else if Ascii.eqb c "]" then Some ([t], s2)
          else None
      | EmptyString => None
      end
  end.

Definition parse (text : string) : option json :=
  match skip_ws text with
  | String "[" s1 =>
      match skip_ws s1 with
      | String "]" s2 =>
          match skip_ws s2 with
          | EmptyString => Some (JArray [])
          | _ => None
          end
      | _ =>
          '(data, s2) ← parse_items (String.length s1) s1;
          match skip_ws s2 with
          | EmptyString => Some (JArray data)
          | _ => None
          end
      end
  | s =>
      (* a literal on its own is a JSON text that is no array *)
      match parse_bool s with
      | Some (_, rest) =>
          match skip_ws rest with EmptyString => Some JOther | _ => None end
      | None =>
          match s with
          | String "n" (String "u" (String "l" (String "l" rest))) =>
              match skip_ws rest with EmptyString => Some JOther | _ => None end
          | _ => None
          end
      end
  end.

(** [Number(s)] on a decimal integer literal and on the empty string; any
    other string counts as no numeric literal, for which [Number] gives NaN. *)
Definition string_to_number (s : string) : number :=
  match s with
  | EmptyString => Int 0
  | _ =>
      match Z_of_lexeme s with
      | Some z => Int z
      | None => NonInt false
      end
  end.

Definition messages (e : native_error) : string :=
  match e with
  | ENOENT => "ENOENT: no such file or directory, open 'db.json'"
  | EACCES => "EACCES: permission denied, open 'db.json'"
  | SyntaxError _ => "Unexpected token in JSON"
  | TypeError => "data.find is not a function"
  end.

Global Instance node : Runtime := {|
  filename := "db.json";
  JSON_parse := parse;
  JSON_stringify := stringify;
  StringToNumber := string_to_number;
  native_message := messages
|}.

End RefRuntime.

(** ** Sample stores, on the reference runtime *)
Module Sample.

(** A disk that accepts writes and holds the serialized [data]. *)
Definition disk (data : list TaskType.t) : World :=
  {| file := Some (RefRuntime.stringify data 2); writable := true; calls := [] |}.

(** A disk on which the file does not exist. *)
Definition blank : World := {| file := None; writable := true; calls := [] |}.

(** The reference runtime in an environment where DB_FILE is not set. *)
Definition without_DB_FILE : Runtime :=
  {| filename := EmptyString;
     JSON_parse := RefRuntime.parse;
     JSON_stringify := RefRuntime.stringify;
     StringToNumber := RefRuntime.string_to_number;
     native_message := RefRuntime.messages |}.


(** A disk that accepts writes and holds the text [raw]. *)
Definition holding (raw : string) : World :=
  {| file := Some raw; writable := true; calls := [] |}.

Definition chores : list TaskType.t :=
  [ TaskType.mk 1 "wash the dishes" false;
    TaskType.mk 2 "water the plants" true ].

(** Ids out of order, as an imported file may have them. *)
Definition imported : list TaskType.t :=
  [ TaskType.mk 5 "aaa" false; TaskType.mk 2 "bbb" false ].

Definition imported_low_last : list TaskType.t :=
  [ TaskType.mk 3 "aaa" false; TaskType.mk 2 "bbb" false ].

Definition twins : list TaskType.t :=
  [ TaskType.mk 1 "aaa" false; TaskType.mk 1 "bbb" false ].

(** Stored tasks with the placeholder id and with an id below it. *)
Definition placeholder : list TaskType.t := [ TaskType.mk 0 "aaa" false ].

Definition negative : list TaskType.t := [ TaskType.mk (-1) "aaa" false ].

(** A stored title shorter than the Task class accepts. *)
Definition short_titled : list TaskType.t :=
  [ TaskType.mk 1 "wash the dishes" false; TaskType.mk 2 "ab" false ].

End Sample.

(** * Properties *)

(** ** Running the operations on a store *)

Ltac run_js :=
  unfold DB.createDB, DB.DBExists, JSON.parse, JSON.as_array,
    fs.existsSync, fs.readFileSync, fs.writeFileSync,
    bind, try_catch, ret, throw, record_call, after_calls; simpl.

Lemma after_calls_nil (w : World) : after_calls [] w = w.
Proof. destruct w. unfold after_calls. simpl. by rewrite app_nil_r. Qed.

Lemma ltb_length_short (s : string) :
  (String.length s < 3)%nat -> (String.length s <? 3)%nat = true.
Proof. intros. by apply Nat.ltb_lt. Qed.

Lemma ltb_length_valid (s : string) :
  (3 <= String.length s)%nat -> (String.length s <? 3)%nat = false.
Proof. intros. by apply Nat.ltb_ge. Qed.

Section Operations.
Context `{R : Runtime}.

(** The invalid-id guard of [saveTask] passes exactly on the integers from 0
    up. *)
Lemma saveTask_id_guard (id : number) :
  Number.lt0 id || negb (Number.isInteger id) = false <->
  exists z, id = Int z /\ 0 <= z.
Proof.
  destruct id as [z|b]; simpl.
  - rewrite orb_false_r, Z.ltb_ge. split; [eauto | by intros (? & [= <-] & ?)].
  - rewrite orb_true_r. split; [done | by intros (? & ? & ?)].
Qed.

(** [saveTask] up to the point where the array is in memory. *)
Lemma saveTask_loaded (w : World) (data : list TaskType.t) (z : Z)
    (title : string) (completed : bool) :
  stores w data -> 0 <= z -> (3 <= String.length title)%nat ->
  DB.saveTask (Int z) title completed w =
    let w1 := after_calls [existsSync_call; readFileSync_call] w in
    if bool_decide (Int z = Int 0) then
      match list_find (fun t => TaskType.title t = title) data with
      | Some _ => (Throw (Error "A task with this title already exists."), w1)
      | None =>
          (_ <- fs.writeFileSync
                  (JSON_stringify
                     (data ++ [DB.new_task (last_id_plus_one data) title completed]) 2) ;
           ret (Int (last_id_plus_one data))) w1
      end
    else
      match list_find (fun t => Int (TaskType.id t) = Int z) data with
      | None => (Throw (Error "Task not found"), w1)
      | Some (i, existingTask) =>
          match list_find
                  (fun t => TaskType.title t = title /\ Int (TaskType.id t) <> Int z)
                  data with
          | Some _ => (Throw (Error "Another task already has this title."), w1)
          | None =>
              (_ <- fs.writeFileSync
                      (JSON_stringify
                         (<[i := DB.overwrite title completed existingTask]> data) 2) ;
               ret (Int z)) w1
          end
      end.
Proof.
  intros (raw & Hfile & Hparse) Hz Htitle.
  unfold DB.saveTask, Number.lt0, Number.isInteger.
  rewrite (proj2 (Z.ltb_ge z 0) Hz), (ltb_length_valid _ Htitle). simpl orb.
  cbv iota.
  destruct w as [f wr cs]. simpl in Hfile. subst f.
  run_js. rewrite Hparse. simpl. rewrite <- app_assoc. simpl.
  unfold last_id_plus_one.
  case_bool_decide.
  - destruct (list_find _ data); reflexivity.
  - destruct (list_find _ data) as [[i e]|]; [|reflexivity].
    destruct (list_find _ data); reflexivity.
Qed.

End Operations.

Section Claims.
Context `{R : Runtime}.

(** [saveTask] rejects its arguments before it touches the file. *)
Lemma saveTask_rejects_id (id : number) (title : string) (completed : bool)
    (w : World) :
  Number.lt0 id || negb (Number.isInteger id) = true ->
  DB.saveTask id title completed w =
    (Throw (Error "id must be an integer and greater than or equal to zero."), w).
Proof. intros H. unfold DB.saveTask. by rewrite H. Qed.

Lemma saveTask_rejects_title (id : number) (title : string) (completed : bool)
    (w : World) :
  Number.lt0 id || negb (Number.isInteger id) = false ->
  (String.length title < 3)%nat ->
  DB.saveTask id title completed w =
    (Throw (Error "title must be a string and at least three characters long."), w).
Proof.
  intros H Hlen. unfold DB.saveTask. by rewrite H, (ltb_length_short _ Hlen).
Qed.

(** C4.  For every id and completed flag, [saveTask] with a title shorter
    than 3 characters throws before any file call: the world it leaves is the
    world it was given, so the stored collection is unchanged.  With an id
    that passes the id check the error is the title error; the constructor of
    the Task class refuses such a title in the same way, before anything
    could be saved. *)
Theorem saveTask_short_title_throws (id : number) (title : string)
    (completed : bool) (w : World) :
  (String.length title < 3)%nat ->
  (exists e, DB.saveTask id title completed w = (Throw e, w)) /\
  (Number.lt0 id || negb (Number.isInteger id) = false ->
   DB.saveTask id title completed w =
     (Throw (Error "title must be a string and at least three characters long."),
      w)) /\
  Task.new title completed w =
    (Throw (Error "Title must be a string and contain at least 3 characters"), w).
Proof.
  intros Hlen. split; [|split].
  - destruct (Number.lt0 id || negb (Number.isInteger id)) eqn:Hid.
    + eexists. by apply saveTask_rejects_id.
    + eexists. by apply saveTask_rejects_title.
  - intros Hid. by apply saveTask_rejects_title.
  - unfold Task.new, Task.set_title, bind, throw.
    by rewrite (ltb_length_short _ Hlen).
Qed.

(** With a title some stored task has, [saveTask] throws for the id 0 and
    for every id other than that task's, without attempting a write. *)
Lemma saveTask_title_taken (w : World) (data : list TaskType.t)
    (t : TaskType.t) (id : number) (completed : bool) :
  stores w data ->
  t ∈ data ->
  id = Int 0 \/ id <> Int (TaskType.id t) ->
  exists e cs,
    DB.saveTask id (TaskType.title t) completed w = (Throw e, after_calls cs w) /\
    read_only_calls cs.
Proof.
  intros Hst Hin Hid.
  destruct (Number.lt0 id || negb (Number.isInteger id)) eqn:Hguard.
  { exists (Error "id must be an integer and greater than or equal to zero."), [].
    rewrite after_calls_nil. split; [by apply saveTask_rejects_id | by left]. }
  destruct (Nat.lt_ge_cases (String.length (TaskType.title t)) 3) as [Hshort|Hlen].
  { eexists _, []. rewrite after_calls_nil.
    split; [by apply saveTask_rejects_title | by left]. }
  apply saveTask_id_guard in Hguard as (z & -> & Hz).
  rewrite (saveTask_loaded w data z _ completed Hst Hz Hlen). cbv zeta.
  case_bool_decide as Hzero.
  - destruct (list_find_elem_of (fun u => TaskType.title u = TaskType.title t)
                data t Hin eq_refl) as [p ->].
    eexists _, _. split; [reflexivity | by right].
  - destruct Hid as [Hid|Hid]; [done|].
    destruct (list_find (fun u => Int (TaskType.id u) = Int z) data)
      as [[i existing]|].
    + destruct (list_find_elem_of
                  (fun u => TaskType.title u = TaskType.title t /\
                            Int (TaskType.id u) <> Int z) data t Hin) as [p ->].
      { split; [done | congruence]. }
      eexists _, _. split; [reflexivity | by right].
    + eexists _, _. split; [reflexivity | by right].
Qed.

(** C8 (as the code has it).  For a store and an id other than 0 that no
    stored task has, [saveTask] throws, the file is as it was and no write
    was attempted.  Which error it throws is decided by the checks that come
    before the lookup: an id below 0 or not an integer gives the id error and
    a title under 3 characters the title error, both before any file call;
    for an integer id above 0 and a title of at least 3 characters the error
    is 'Task not found', after the existence test and the read. *)
Theorem saveTask_unknown_id_throws (w : World) (data : list TaskType.t)
    (id : number) (title : string) (completed : bool) :
  stores w data ->
  id <> Int 0 ->
  (forall t, t ∈ data -> Int (TaskType.id t) <> id) ->
  (exists e cs,
     DB.saveTask id title completed w = (Throw e, after_calls cs w) /\
     read_only_calls cs /\
     stores (after_calls cs w) data) /\
  (Number.lt0 id || negb (Number.isInteger id) = true ->
   DB.saveTask id title completed w =
     (Throw (Error "id must be an integer and greater than or equal to zero."),
      w)) /\
  (Number.lt0 id || negb (Number.isInteger id) = false ->
   (String.length title < 3)%nat ->
   DB.saveTask id title completed w =
     (Throw (Error "title must be a string and at least three characters long."),
      w)) /\
  (Number.lt0 id || negb (Number.isInteger id) = false ->
   (3 <= String.length title)%nat ->
   DB.saveTask id title completed w =
     (Throw (Error "Task not found"),
      after_calls [existsSync_call; readFileSync_call] w)).
Proof.
  intros Hst Hnz Hnone.
  assert (Hfound : forall z, id = Int z -> 0 <= z ->
            (3 <= String.length title)%nat ->
            DB.saveTask id title completed w =
              (Throw (Error "Task not found"),
               after_calls [existsSync_call; readFileSync_call] w)).
  { intros z -> Hz Hlen.
    rewrite (saveTask_loaded w data z title completed Hst Hz Hlen). cbv zeta.
    rewrite bool_decide_eq_false_2 by done.
    assert (list_find (fun t => Int (TaskType.id t) = Int z) data = None) as ->.
    { apply list_find_None, Forall_forall. intros t Ht. by apply Hnone. }
    reflexivity. }
  split; [|split; [|split]].
  - destruct (Number.lt0 id || negb (Number.isInteger id)) eqn:Hguard.
    { eexists _, []. rewrite after_calls_nil.
      split; [by apply saveTask_rejects_id | split; [by left | done]]. }
    destruct (Nat.lt_ge_cases (String.length title) 3) as [Hshort|Hlen].
    { eexists _, []. rewrite after_calls_nil.
      split; [by apply saveTask_rejects_title | split; [by left | done]]. }
    apply saveTask_id_guard in Hguard as (z & Hid & Hz).
    eexists _, _. split; [by eapply Hfound|]. split; [by right|].
    destruct Hst as (raw & Hraw & Hparse). by exists raw.
  - intros Hguard. by apply saveTask_rejects_id.
  - intros Hguard Hshort. by apply saveTask_rejects_title.
  - intros Hguard Hlen.
    apply saveTask_id_guard in Hguard as (z & Hid & Hz). by eapply Hfound.
Qed.

(** [deleteTaskByID] rejects an id that is no integer above 0 before it
    touches the file. *)
Lemma deleteTaskByID_rejects (id : id_arg) (w : World) :
  negb (Number.isInteger (to_number id)) || Number.le0 (to_number id) = true ->
  DB.deleteTaskByID id w = (Throw (Error "task id must be a positive integer"), w).
Proof. intros H. unfold DB.deleteTaskByID. by rewrite H. Qed.

Lemma deleteTaskByID_id_guard (n : number) :
  negb (Number.isInteger n) || Number.le0 n = false <->
  exists k, n = Int k /\ 0 < k.
Proof.
  destruct n as [z|b]; simpl.
  - rewrite Z.leb_gt. split; [eauto | by intros (? & [= <-] & ?)].
  - split; [done | by intros (? & ? & ?)].
Qed.

(** [deleteTaskByID] on a file that exists: the array it works on is the
    parsed file, or the empty array for an empty file. *)
Lemma deleteTaskByID_loaded (w : World) (raw : string) (data : list TaskType.t)
    (id : id_arg) (k : Z) :
  file w = Some raw ->
  (if bool_decide (raw = EmptyString) then data = []
   else JSON_parse raw = Some (JArray data)) ->
  to_number id = Int k -> 0 < k ->
  DB.deleteTaskByID id w =
    let w1 := after_calls [readFileSync_call] w in
    let kept := filter (fun task => Int (TaskType.id task) <> Int k) data in
    if bool_decide (length kept = length data) then (Return false, w1)
    else
      try_catch
        (_ <- fs.writeFileSync (JSON_stringify kept 4) ; ret true)
        (fun error => throw (Error ("Cannot write to DB file: " +:+ message error)))
        w1.
Proof.
  intros Hfile Hdata Hid Hk. unfold DB.deleteTaskByID. rewrite Hid.
  rewrite (proj2 (deleteTaskByID_id_guard (Int k))) by eauto.
  destruct w as [f wr cs]. simpl in Hfile. subst f.
  unfold bind at 1. unfold try_catch at 1. unfold bind at 1.
  unfold fs.readFileSync at 1. simpl file. cbv iota beta.
  case_bool_decide as Hraw.
  - subst data. reflexivity.
  - unfold JSON.parse. rewrite Hdata.
    unfold bind, ret, try_catch, throw. cbv beta iota zeta.
    by destruct (bool_decide (length _ = length data)).
Qed.

(** C5.  For a store and an integer id above 0 that no stored task has,
    [deleteTaskByID] returns false, and the only call it makes is the read:
    the file is not written and the collection stays as it was. *)
Theorem deleteTaskByID_not_found (w : World) (data : list TaskType.t)
    (id : id_arg) (k : Z) :
  stores w data ->
  to_number id = Int k -> 0 < k ->
  (forall t, t ∈ data -> TaskType.id t <> k) ->
  DB.deleteTaskByID id w = (Return false, after_calls [readFileSync_call] w) /\
  stores (after_calls [readFileSync_call] w) data.
Proof.
  intros (raw & Hfile & Hparse) Hid Hk Hnone. split; [|by exists raw].
  assert (Hkeep : forall l : list TaskType.t,
            (forall t, t ∈ l -> TaskType.id t <> k) ->
            filter (fun task => Int (TaskType.id task) <> Int k) l = l).
  { induction l as [|t l IH]; intros Hl; [done|].
    rewrite filter_cons_True.
    - f_equal. apply IH. intros u Hu. apply Hl. by right.
    - intros [= Heq]. by apply (Hl t); [left|]. }
  destruct (decide (raw = EmptyString)) as [Hraw|Hraw].
  - rewrite (deleteTaskByID_loaded w raw [] id k Hfile); [done| |done..].
    by rewrite bool_decide_eq_true_2.
  - rewrite (deleteTaskByID_loaded w raw data id k Hfile); [| |done..].
    + cbv zeta. rewrite (Hkeep data Hnone). by rewrite bool_decide_eq_true_2.
    + by rewrite bool_decide_eq_false_2.
Qed.

(** C10.  [deleteTaskByID] throws for every id that is not an integer above
    0, id 0 included, without any file call: the world it leaves is the world
    it was given.  A task object that was constructed and not yet saved holds
    the id 0, so passing its id always throws. *)
Theorem deleteTaskByID_rejects_non_positive (id : id_arg) (w : World) :
  (forall k, to_number id = Int k -> k <= 0) ->
  DB.deleteTaskByID id w =
    (Throw (Error "task id must be a positive integer"), w) /\
  (forall (title : string) (completed : bool) (w0 w1 : World) (task : Task.t),
     Task.new title completed w0 = (Return task, w1) ->
     DB.deleteTaskByID (IdNumber (Task.id task)) w =
       (Throw (Error "task id must be a positive integer"), w)).
Proof.
  intros Hid. split.
  - apply deleteTaskByID_rejects.
    destruct (negb (Number.isInteger (to_number id)) || Number.le0 (to_number id))
      eqn:Hguard; [done|].
    apply deleteTaskByID_id_guard in Hguard as (k & Hk & Hpos).
    specialize (Hid k Hk). lia.
  - intros title completed w0 w1 task Hnew.
    apply deleteTaskByID_rejects.
    unfold Task.new, Task.set_title, Task.set_completed, bind, ret, throw in Hnew.
    destruct (String.length title <? 3)%nat; [done|].
    by injection Hnew as <- _.
Qed.

(** C7 (where the code departs from it).  With the file absent,
    [getAllTasks], [getTaskByID], [getTaskByTitle] and [saveTask] create it
    with the text of the empty array and go on, while [deleteTaskByID] throws
    'Cannot read DB file: ...' and leaves the file absent. *)
Theorem deleteTaskByID_absent_file_throws (k : positive) (cs : list fs_call) :
  let absent := mkWorld None true cs in
  let created :=
    mkWorld (Some "[]") true
      (cs ++ [existsSync_call; existsSync_call; writeFileSync_call "[]"]) in
  DB.deleteTaskByID (IdNumber (Int (Z.pos k))) absent =
    (Throw (Error ("Cannot read DB file: " +:+ native_message ENOENT)),
     mkWorld None true (cs ++ [readFileSync_call])) /\
  DB.getAllTasks absent = (Return [], created) /\
  DB.getTaskByID (IdNumber (Int (Z.pos k))) absent = (Return None, created) /\
  DB.getTaskByTitle "abc" absent = (Return None, created) /\
  DB.saveTask (Int 0) "abc" false absent =
    (Return (Int 1),
     let text := JSON_stringify [DB.new_task 1 "abc" false] 2 in
     mkWorld (Some text) true
       (cs ++ [existsSync_call; existsSync_call; writeFileSync_call "[]";
               writeFileSync_call text])).
Proof.
  intros absent created. split; [|split; [|split; [|split]]].
  - unfold DB.deleteTaskByID. simpl. run_js. reflexivity.
  - unfold DB.getAllTasks. run_js. by rewrite <- !app_assoc.
  - unfold DB.getTaskByID. run_js. by rewrite <- !app_assoc.
  - unfold DB.getTaskByTitle. run_js. by rewrite <- !app_assoc.
  - unfold DB.saveTask. run_js. by rewrite <- !app_assoc.
Qed.

(** *** What is in the file after a write *)

Context {L : RuntimeLaws R}.

Lemma stores_after_rewrite (w : World) (data : list TaskType.t) (space : nat) :
  stores (after_rewrite (JSON_stringify data space) w) data.
Proof. eexists. split; [reflexivity | apply parse_stringify]. Qed.

(** A write on a disk that accepts it, following the existence test and the
    read. *)
Lemma write_after_load {A} (w : World) (text : string) (a : A) :
  writable w = true ->
  (_ <- fs.writeFileSync text ; ret a)
    (after_calls [existsSync_call; readFileSync_call] w) =
  (Return a, after_rewrite text w).
Proof.
  intros Hw. destruct w as [f wr cs]. simpl in Hw. subst wr.
  run_js. unfold after_rewrite. simpl. by rewrite <- app_assoc.
Qed.

Lemma fold_max_upper (z : Z) (zs : list Z) :
  Forall (fun x => x <= fold_right Z.max z zs) (z :: zs).
Proof.
  induction zs as [|y zs IH]; simpl.
  - repeat constructor. lia.
  - inversion IH as [|? ? Hz Hzs]; subst.
    constructor; [lia|]. constructor; [lia|].
    eapply Forall_impl; [exact Hzs|]. simpl. intros. lia.
Qed.

Lemma fold_max_elem (z : Z) (zs : list Z) : fold_right Z.max z zs ∈ z :: zs.
Proof.
  induction zs as [|y zs IH]; simpl.
  - by left.
  - destruct (Z.max_spec y (fold_right Z.max z zs)) as [[_ ->]|[_ ->]].
    + apply elem_of_cons in IH as [->|IH]; [by left | by right; right].
    + by right; left.
Qed.

(** From a safe integer the next id is at most 2^53 in absolute value: an
    integer that a double holds, so that the sum of the source is exact. *)
Lemma last_id_plus_one_exact (data : list TaskType.t) :
  last_id_safe data -> - 2 ^ 53 < last_id_plus_one data <= 2 ^ 53.
Proof.
  unfold last_id_safe, last_id_plus_one, safe_integer. intros Hsafe.
  destruct (last data) as [t|]; [specialize (Hsafe t eq_refl)|]; lia.
Qed.

(** When no stored id reaches the id of the last task plus one, that id is
    the maximum plus one. *)
Lemma last_id_is_max (data : list TaskType.t) :
  (forall t, t ∈ data -> TaskType.id t < last_id_plus_one data) ->
  last_id_plus_one data = max_id_plus_one data.
Proof.
  intros Hbound. unfold last_id_plus_one, max_id_plus_one, ids in *.
  destruct (last data) as [t|] eqn:Hlast.
  - assert (Ht : t ∈ data).
    { apply last_Some in Hlast as [l' ->]. apply elem_of_app. right. by left. }
    destruct data as [|u data]; [by apply elem_of_nil in Ht|].
    rewrite fmap_cons. f_equal.
    pose proof (fold_max_upper (TaskType.id u) (TaskType.id <$> data)) as Hup.
    pose proof (fold_max_elem (TaskType.id u) (TaskType.id <$> data)) as Hel.
    rewrite <- fmap_cons in Hup, Hel.
    apply list_elem_of_fmap in Hel as (v & Hv & Hvin).
    specialize (Hbound v Hvin).
    rewrite Forall_forall in Hup.
    specialize (Hup (TaskType.id t)
                  (list_elem_of_fmap_2 TaskType.id _ _ Ht)). lia.
  - apply last_None in Hlast. by subst data.
Qed.

(** C1 (as the code has it).  For a store whose last task holds a safe
    integer as its id, [saveTask] with id 0 and a title of at least 3
    characters that no stored task has gives the new task the id of the last
    stored task plus one, or 1 when the collection is empty, and appends the
    task with that id.  That id is the maximum stored id plus one whenever no
    stored id reaches it, which is so when the last task holds the greatest
    id; and it is an integer that a double holds. *)
Theorem saveTask_new_assigns_last_id_plus_one (w : World)
    (data : list TaskType.t) (title : string) (completed : bool) :
  stores w data ->
  last_id_safe data ->
  writable w = true ->
  (3 <= String.length title)%nat ->
  (forall t, t ∈ data -> TaskType.title t <> title) ->
  let finalId := last_id_plus_one data in
  let data' := (data ++ [DB.new_task finalId title completed])%list in
  let w' := after_rewrite (JSON_stringify data' 2) w in
  DB.saveTask (Int 0) title completed w = (Return (Int finalId), w') /\
  stores w' data' /\
  (data = [] -> finalId = 1) /\
  ((forall t, t ∈ data -> TaskType.id t < finalId) ->
   finalId = max_id_plus_one data) /\
  - 2 ^ 53 < finalId <= 2 ^ 53.
Proof.
  intros Hst Hsafe Hw Hlen Hfresh finalId data' w'.
  split; [|split; [|split; [|split]]].
  - rewrite (saveTask_loaded w data 0 title completed Hst) by done. cbv zeta.
    rewrite bool_decide_eq_true_2 by done.
    assert (list_find (fun t => TaskType.title t = title) data = None) as ->.
    { apply list_find_None, Forall_forall. intros t Ht. by apply Hfresh. }
    by apply write_after_load.
  - apply stores_after_rewrite.
  - by intros ->.
  - apply last_id_is_max.
  - by apply last_id_plus_one_exact.
Qed.

(** C6.  Round trip: on a disk that accepts the write, [insertBulkData] with
    an array of tasks followed by [getAllTasks] returns that array: the same
    tasks, in the same order, with the same id, title and completed. *)
Theorem insertBulkData_getAllTasks_roundtrip (w : World)
    (tasks : list TaskType.t) :
  writable w = true ->
  let text := JSON_stringify tasks 2 in
  let w1 := mkWorld (Some text) true (calls w ++ [writeFileSync_call text]) in
  DB.insertBulkData (DB.BulkArray tasks) w = (Return tt, w1) /\
  DB.getAllTasks w1 =
    (Return tasks, after_calls [existsSync_call; readFileSync_call] w1).
Proof.
  intros Hw text w1. destruct w as [f wr cs]. simpl in Hw. subst wr. split.
  - unfold DB.insertBulkData. run_js. reflexivity.
  - unfold DB.getAllTasks, w1. run_js. subst text.
    rewrite parse_stringify. simpl. by rewrite <- !app_assoc.
Qed.

(** C9 (as the code has it).  Frame property of an update: for a store that
    holds a task with the id k, k an integer above 0, [saveTask] with id k, a
    title of at least 3 characters that no task with another id has, and a
    completed flag overwrites the title and the completed flag of the first
    task with id k and nothing else: that task keeps the id k, every other
    position holds the task it held, and the length is the same. *)
Theorem saveTask_update_frame (w : World) (data : list TaskType.t) (k : Z)
    (title : string) (completed : bool) :
  stores w data ->
  writable w = true ->
  0 < k ->
  (3 <= String.length title)%nat ->
  (exists t, t ∈ data /\ TaskType.id t = k) ->
  (forall t, t ∈ data -> TaskType.title t = title -> TaskType.id t = k) ->
  exists (i : nat) (existing : TaskType.t),
    data !! i = Some existing /\
    TaskType.id existing = k /\
    (forall j u, data !! j = Some u -> (j < i)%nat -> TaskType.id u <> k) /\
    let data' := <[i := TaskType.mk k title completed]> data in
    let w' := after_rewrite (JSON_stringify data' 2) w in
    DB.saveTask (Int k) title completed w = (Return (Int k), w') /\
    stores w' data' /\
    length data' = length data /\
    data' !! i = Some (TaskType.mk k title completed) /\
    (forall j, j <> i -> data' !! j = data !! j).
Proof.
  intros Hst Hw Hk Hlen (t & Ht & Hid) Hunique.
  destruct (list_find_elem_of (fun u => Int (TaskType.id u) = Int k) data t Ht)
    as [[i existing] Hfind]; [by rewrite Hid|].
  pose proof Hfind as (Hi & [= Hik] & Hfirst)%list_find_Some.
  exists i, existing. split; [done|]. split; [done|]. split.
  { intros j u Hj Hlt Heq. by apply (Hfirst j u Hj Hlt); rewrite Heq. }
  intros data' w'. split; [|split; [|split; [|split]]].
  - rewrite (saveTask_loaded w data k title completed Hst) by (done || lia).
    cbv zeta. rewrite bool_decide_eq_false_2 by (intros [= ->]; lia).
    rewrite Hfind.
    assert (list_find
              (fun u => TaskType.title u = title /\ Int (TaskType.id u) <> Int k)
              data = None) as ->.
    { apply list_find_None, Forall_forall. intros u Hu [Htitle Hne].
      apply Hne. f_equal. by apply Hunique. }
    unfold DB.overwrite. rewrite Hik. by apply write_after_load.
  - apply stores_after_rewrite.
  - apply length_insert.
  - apply list_lookup_insert_eq. by eapply lookup_lt_Some.
  - intros j Hj. by apply list_lookup_insert_ne.
Qed.

(** *** The ids of the stored tasks *)

Lemma stores_same_file (w w' : World) (data : list TaskType.t) :
  file w' = file w -> stores w data -> stores w' data.
Proof. intros Hf (raw & Hraw & Hparse). exists raw. by rewrite Hf. Qed.

Lemma stores_written (w : World) (data : list TaskType.t) (space : nat) :
  file w = Some (JSON_stringify data space) -> stores w data.
Proof. intros Hf. eexists. split; [exact Hf | apply parse_stringify]. Qed.

(** Where [saveTask] can leave the file: as it was, or rewritten with the
    new task appended, or with the first task of the given id overwritten. *)
Lemma saveTask_file (w w' : World) (data : list TaskType.t) (id : number)
    (title : string) (completed : bool) (r : outcome number) :
  stores w data ->
  DB.saveTask id title completed w = (r, w') ->
  file w' = file w \/
  (id = Int 0 /\
   file w' =
     Some (JSON_stringify
             (data ++ [DB.new_task (last_id_plus_one data) title completed]) 2)) \/
  (exists i existing,
     id <> Int 0 /\ data !! i = Some existing /\
     file w' =
       Some (JSON_stringify (<[i := DB.overwrite title completed existing]> data) 2)).
Proof.
  intros Hst Hrun.
  destruct (Number.lt0 id || negb (Number.isInteger id)) eqn:Hguard.
  { rewrite saveTask_rejects_id in Hrun by done. left. by injection Hrun as _ <-. }
  destruct (Nat.lt_ge_cases (String.length title) 3) as [Hshort|Hlen].
  { rewrite saveTask_rejects_title in Hrun by done. left. by injection Hrun as _ <-. }
  apply saveTask_id_guard in Hguard as (z & -> & Hz).
  rewrite (saveTask_loaded w data z title completed Hst Hz Hlen) in Hrun.
  cbv zeta in Hrun.
  assert (Hwrite : forall text (a : number),
            (_ <- fs.writeFileSync text ; ret a)
              (after_calls [existsSync_call; readFileSync_call] w) = (r, w') ->
            file w' = file w \/ file w' = Some text).
  { intros text a. run_js. destruct (writable w); intros [= _ <-]; simpl; auto. }
  case_bool_decide as Hzero.
  - destruct (list_find _ data).
    + left. by injection Hrun as _ <-.
    + apply Hwrite in Hrun as [?|?]; [by left | right; left; by split].
  - destruct (list_find _ data) as [[i existing]|] eqn:Hfind.
    + apply list_find_Some in Hfind as (Hi & _ & _).
      destruct (list_find _ data).
      * left. by injection Hrun as _ <-.
      * apply Hwrite in Hrun as [?|?]; [by left|].
        right; right. by exists i, existing.
    + left. by injection Hrun as _ <-.
Qed.

(** What a [saveTask] that changed the file of a store has done, with what
    its checks have established. *)
Lemma saveTask_effect (w w' : World) (data : list TaskType.t) (id : number)
    (title : string) (completed : bool) (r : outcome number) :
  stores w data ->
  DB.saveTask id title completed w = (r, w') ->
  file w' = file w \/
  (id = Int 0 /\ valid_title title /\
   (forall t, t ∈ data -> TaskType.title t <> title) /\
   file w' =
     Some (JSON_stringify
             (data ++ [DB.new_task (last_id_plus_one data) title completed]) 2)) \/
  (exists z i existing,
     id = Int z /\ 0 < z /\ valid_title title /\
     data !! i = Some existing /\ TaskType.id existing = z /\
     (forall u, u ∈ data -> TaskType.title u = title -> TaskType.id u = z) /\
     file w' =
       Some (JSON_stringify (<[i := DB.overwrite title completed existing]> data) 2)).
Proof.
  intros Hst Hrun.
  destruct (Number.lt0 id || negb (Number.isInteger id)) eqn:Hguard.
  { rewrite saveTask_rejects_id in Hrun by done. left. by injection Hrun as _ <-. }
  destruct (Nat.lt_ge_cases (String.length title) 3) as [Hshort|Hlen].
  { rewrite saveTask_rejects_title in Hrun by done. left. by injection Hrun as _ <-. }
  apply saveTask_id_guard in Hguard as (z & -> & Hz).
  rewrite (saveTask_loaded w data z title completed Hst Hz Hlen) in Hrun.
  cbv zeta in Hrun.
  assert (Hwrite : forall text (a : number),
            (_ <- fs.writeFileSync text ; ret a)
              (after_calls [existsSync_call; readFileSync_call] w) = (r, w') ->
            file w' = file w \/ file w' = Some text).
  { intros text a. run_js. destruct (writable w); intros [= _ <-]; simpl; auto. }
  case_bool_decide as Hzero.
  - destruct (list_find _ data) eqn:Hfresh.
    + left. by injection Hrun as _ <-.
    + apply Hwrite in Hrun as [?|?]; [by left|]. right; left.
      split; [done|]. split; [done|]. split; [|done].
      apply list_find_None in Hfresh. rewrite Forall_forall in Hfresh.
      intros t Ht. by apply Hfresh.
  - destruct (list_find _ data) as [[i existing]|] eqn:Hfind.
    + apply list_find_Some in Hfind as (Hi & [= Hid] & _).
      destruct (list_find _ data) eqn:Hdup.
      * left. by injection Hrun as _ <-.
      * apply Hwrite in Hrun as [?|?]; [by left|].
        right; right. exists z, i, existing.
        split; [done|]. split.
        { assert (z <> 0) by (intros ->; by apply Hzero). lia. }
        split; [done|]. split; [done|]. split; [done|]. split; [|done].
        apply list_find_None in Hdup. rewrite Forall_forall in Hdup.
        intros u Hu Htitle. destruct (decide (TaskType.id u = z)); [done|].
        exfalso. apply (Hdup u Hu). split; [done|]. by intros [= ?].
    + left. by injection Hrun as _ <-.
Qed.

(** Where [deleteTaskByID] can leave the file: as it was, or rewritten
    without the tasks of the given id. *)
Lemma deleteTaskByID_file (w w' : World) (data : list TaskType.t) (id : id_arg)
    (r : outcome bool) :
  stores w data ->
  DB.deleteTaskByID id w = (r, w') ->
  file w' = file w \/
  exists k,
    file w' =
      Some (JSON_stringify
              (filter (fun task => Int (TaskType.id task) <> Int k) data) 4).
Proof.
  intros (raw & Hfile & Hparse) Hrun.
  destruct (negb (Number.isInteger (to_number id)) || Number.le0 (to_number id))
    eqn:Hguard.
  { rewrite deleteTaskByID_rejects in Hrun by done. left. by injection Hrun as _ <-. }
  apply deleteTaskByID_id_guard in Hguard as (k & Hid & Hk).
  destruct (decide (raw = EmptyString)) as [Hraw|Hraw].
  - rewrite (deleteTaskByID_loaded w raw [] id k Hfile) in Hrun; [| |done..].
    + left. by injection Hrun as _ <-.
    + by rewrite bool_decide_eq_true_2.
  - rewrite (deleteTaskByID_loaded w raw data id k Hfile) in Hrun; [| |done..].
    + cbv zeta in Hrun. case_bool_decide.
      * left. by injection Hrun as _ <-.
      * revert Hrun. run_js.
        destruct (writable w); intros [= _ <-]; simpl; eauto.
    + by rewrite bool_decide_eq_false_2.
Qed.

(** Where [insertBulkData] can leave the file: as it was, or holding the
    array it was given; the latter whenever it returns. *)
Lemma insertBulkData_file (w w' : World) (b : DB.bulk) (r : outcome unit) :
  DB.insertBulkData b w = (r, w') ->
  (file w' = file w /\ r <> Return tt) \/
  exists tasks,
    bulk_denotes b tasks /\ file w' = Some (JSON_stringify tasks 2).
Proof.
  unfold DB.insertBulkData.
  assert (Hwrite : forall tasks,
            try_catch (fs.writeFileSync (JSON_stringify tasks 2))
              (fun _ => throw (Error "Cannot write to DB file.")) w = (r, w') ->
            (file w' = file w /\ r <> Return tt) \/
            file w' = Some (JSON_stringify tasks 2)).
  { intros tasks. run_js. destruct (writable w); intros [= <- <-]; simpl; auto. }
  destruct b as [text|tasks].
  - unfold bind, try_catch at 1, JSON.parse.
    destruct (JSON_parse text) as [[tasks|]|] eqn:Hparse; unfold ret, throw.
    + intros [?|?]%Hwrite; [by left | right; by exists tasks].
    + intros [= <- <-]. by left.
    + intros [= <- <-]. by left.
  - unfold bind, ret. intros [?|?]%Hwrite; [by left | right; by exists tasks].
Qed.

Lemma ids_overwrite (data : list TaskType.t) (i : nat) (existing : TaskType.t)
    (title : string) (completed : bool) :
  data !! i = Some existing ->
  ids (<[i := DB.overwrite title completed existing]> data) = ids data.
Proof.
  intros Hi. unfold ids. rewrite list_fmap_insert. simpl.
  apply list_insert_id. by rewrite list_lookup_fmap, Hi.
Qed.

Lemma ids_filter_sublist (P : TaskType.t -> Prop) `{!forall t, Decision (P t)}
    (data : list TaskType.t) :
  ids (filter P data) `sublist_of` ids data.
Proof. unfold ids. apply fmap_sublist, sublist_filter. Qed.

Lemma ascending_app (zs : list Z) (z : Z) :
  ascending zs -> Forall (fun x => x < z) zs -> ascending (zs ++ [z]).
Proof.
  induction zs as [|y zs IH]; simpl; [by auto|].
  intros [Hy Hzs] Hbound. inversion Hbound; subst. split.
  - apply Forall_app. split; [done | by constructor].
  - by apply IH.
Qed.

Lemma ascending_sublist (l1 l2 : list Z) :
  l1 `sublist_of` l2 -> ascending l2 -> ascending l1.
Proof.
  induction 1 as [|x l1 l2 Hsub IH|x l1 l2 Hsub IH]; simpl; [done| |].
  - intros [Hx Hl2]. split; [|by apply IH].
    rewrite Forall_forall in Hx |- *. intros y Hy. apply Hx.
    by eapply elem_of_sublist.
  - intros [_ Hl2]. by apply IH.
Qed.

Lemma ascending_NoDup (zs : list Z) : ascending zs -> NoDup zs.
Proof.
  induction zs as [|z zs IH]; simpl; [constructor|].
  intros [Hz Hzs]. constructor; [|by apply IH].
  intros Hin. rewrite Forall_forall in Hz. specialize (Hz z Hin). lia.
Qed.

(** In ascending order the last task holds the greatest id. *)
Lemma ascending_below_next (data : list TaskType.t) :
  ascending (ids data) ->
  forall t, t ∈ data -> TaskType.id t < last_id_plus_one data.
Proof.
  unfold last_id_plus_one.
  induction data as [|u data IH]; intros Hasc t Ht; [by apply elem_of_nil in Ht|].
  unfold ids in Hasc. rewrite fmap_cons in Hasc. destruct Hasc as [Hu Hdata].
  destruct data as [|v data].
  - apply list_elem_of_singleton in Ht as ->. simpl. lia.
  - rewrite last_cons_cons.
    apply elem_of_cons in Ht as [->|Ht]; [|by apply IH].
    assert (Hlast : exists x, last (v :: data) = Some x /\ x ∈ v :: data).
    { destruct (last (v :: data)) as [x|] eqn:Hx.
      - exists x. split; [done|]. by apply last_Some_elem_of.
      - by apply last_None in Hx. }
    destruct Hlast as (x & -> & Hxin).
    rewrite Forall_forall in Hu.
    specialize (Hu (TaskType.id x) (list_elem_of_fmap_2 TaskType.id _ _ Hxin)). lia.
Qed.

(** A [saveTask] with id 0 that returns has appended its task. *)
Lemma saveTask_new_returns (w w' : World) (data : list TaskType.t)
    (title : string) (completed : bool) (r : number) :
  stores w data ->
  DB.saveTask (Int 0) title completed w = (Return r, w') ->
  stores w' (data ++ [DB.new_task (last_id_plus_one data) title completed]).
Proof.
  intros Hst Hrun.
  destruct (Nat.lt_ge_cases (String.length title) 3) as [Hshort|Hlen].
  { by rewrite saveTask_rejects_title in Hrun. }
  rewrite (saveTask_loaded w data 0 title completed Hst) in Hrun by done.
  cbv zeta in Hrun. rewrite bool_decide_eq_true_2 in Hrun by done.
  destruct (list_find _ data); [done|].
  revert Hrun. run_js. destruct (writable w); [|done].
  intros [= _ <-]. by eapply stores_written.
Qed.

(** Appending a task under a title no stored task has keeps the titles
    pairwise distinct. *)
Lemma titles_distinct_after_append (data : list TaskType.t) (z : Z)
    (title : string) (completed : bool) :
  NoDup (titles data) ->
  (forall t, t ∈ data -> TaskType.title t <> title) ->
  NoDup (titles (data ++ [DB.new_task z title completed])).
Proof.
  intros Hnd Hfresh. unfold titles in *. rewrite fmap_snoc. simpl.
  apply NoDup_app. split; [done|]. split; [|apply NoDup_singleton].
  intros x (t & -> & Ht)%list_elem_of_fmap Hx.
  apply list_elem_of_singleton in Hx. by apply (Hfresh t).
Qed.

(** Overwriting the title of the task at [i] keeps the titles pairwise
    distinct when the ids are pairwise distinct and every task that holds
    the new title already has the id of that task. *)
Lemma titles_distinct_after_overwrite (data : list TaskType.t) (i : nat)
    (existing : TaskType.t) (title : string) (completed : bool) :
  NoDup (ids data) ->
  NoDup (titles data) ->
  data !! i = Some existing ->
  (forall u, u ∈ data -> TaskType.title u = title ->
             TaskType.id u = TaskType.id existing) ->
  NoDup (titles (<[i := DB.overwrite title completed existing]> data)).
Proof.
  intros Hids Hnd Hi Honly. unfold titles in *. rewrite list_fmap_insert. simpl.
  assert (Hsame : forall j, (TaskType.title <$> data) !! j = Some title -> j = i).
  { intros j Hj. apply list_lookup_fmap_Some in Hj as (u & Htitle & Hu).
    assert (Hid : TaskType.id u = TaskType.id existing).
    { apply Honly; [by eapply list_elem_of_lookup_2 | done]. }
    apply (NoDup_lookup (ids data) j i (TaskType.id u)).
    - done.
    - unfold ids. by rewrite list_lookup_fmap, Hu.
    - unfold ids. by rewrite list_lookup_fmap, Hi, Hid. }
  apply NoDup_alt. intros a b x Ha Hb.
  apply list_lookup_insert_Some in Ha as [(<- & <- & _)|[Hai Ha]];
    apply list_lookup_insert_Some in Hb as [(Hib & Hx & _)|[Hbi Hb]].
  - done.
  - symmetry. by apply Hsame.
  - subst x. subst b. by apply Hsame.
  - by eapply (NoDup_lookup _ a b x Hnd).
Qed.

(** C3 (as the code has it).  When the store holds a task with the title T,
    [saveTask] with id 0 and title T, and [saveTask] with title T and any id
    other than that task's (another task being one with another id, as the
    check of the source has it), throws; the file is as it was and no write
    was attempted.  When the stored ids are pairwise distinct, this holds
    for the id of every other stored task.  Once [saveTask] with id 0 and
    title T has returned, a second one throws.  And from a store whose ids
    and whose titles are pairwise distinct, no [saveTask] leaves two tasks
    under one title. *)
Theorem saveTask_duplicate_title_throws (w : World) (data : list TaskType.t)
    (T : string) :
  stores w data ->
  (forall t id completed,
     t ∈ data -> TaskType.title t = T ->
     id = Int 0 \/ id <> Int (TaskType.id t) ->
     exists e cs,
       DB.saveTask id T completed w = (Throw e, after_calls cs w) /\
       read_only_calls cs) /\
  (NoDup (ids data) ->
   forall i j t other completed,
     data !! i = Some t -> data !! j = Some other -> i <> j ->
     TaskType.title t = T ->
     exists e cs,
       DB.saveTask (Int (TaskType.id other)) T completed w =
         (Throw e, after_calls cs w) /\
       read_only_calls cs) /\
  (forall completed r w' completed',
     DB.saveTask (Int 0) T completed w = (Return r, w') ->
     exists e cs,
       DB.saveTask (Int 0) T completed' w' = (Throw e, after_calls cs w') /\
       read_only_calls cs) /\
  (NoDup (ids data) -> NoDup (titles data) ->
   forall id title completed r w',
     DB.saveTask id title completed w = (r, w') ->
     exists data', stores w' data' /\ NoDup (titles data')).
Proof.
  intros Hst. split; [|split; [|split]].
  - intros t id completed Ht <- Hid. by eapply saveTask_title_taken.
  - intros Hids i j t other completed Hi Hj Hij <-.
    apply (saveTask_title_taken w data t); [done| |].
    + by eapply list_elem_of_lookup_2.
    + right. intros [= Heq]. apply Hij.
      apply (NoDup_lookup (ids data) i j (TaskType.id t) Hids).
      * unfold ids. by rewrite list_lookup_fmap, Hi.
      * unfold ids. rewrite list_lookup_fmap, Hj. simpl. by rewrite Heq.
  - intros completed r w' completed' Hrun.
    pose proof (saveTask_new_returns w w' data T completed r Hst Hrun) as Hst'.
    apply (saveTask_title_taken w' _
             (DB.new_task (last_id_plus_one data) T completed) (Int 0) completed'
             Hst'); [|by left].
    apply elem_of_app. right. by left.
  - intros Hids Hnd id title completed r w' Hrun.
    destruct (saveTask_effect w w' data id title completed r Hst Hrun)
      as [Hf|[(_ & _ & Hfresh & Hf)|
              (z & i & existing & _ & _ & _ & Hi & Hid & Honly & Hf)]].
    + exists data. split; [by eapply stores_same_file | done].
    + eexists. split; [by eapply stores_written|].
      by apply titles_distinct_after_append.
    + eexists. split; [by eapply stores_written|].
      apply titles_distinct_after_overwrite; try done. by rewrite Hid.
Qed.

(** Appending the task with the next id keeps the ids pairwise distinct
    exactly when no stored task has that id. *)
Lemma distinct_after_append (data : list TaskType.t) (title : string)
    (completed : bool) :
  NoDup (ids data) ->
  (NoDup (ids (data ++ [DB.new_task (last_id_plus_one data) title completed])) <->
   last_id_plus_one data ∉ ids data).
Proof.
  intros Hnd. unfold ids. rewrite fmap_snoc. simpl. rewrite NoDup_app. split.
  - intros (_ & Hdisj & _) Hin. apply (Hdisj _ Hin). by left.
  - intros Hnew. split; [done|]. split; [|apply NoDup_singleton].
    intros z Hz Hz'. apply list_elem_of_singleton in Hz'. by subst z.
Qed.

Lemma ascending_after_append (data : list TaskType.t) (title : string)
    (completed : bool) :
  ascending (ids data) ->
  ascending (ids (data ++ [DB.new_task (last_id_plus_one data) title completed])).
Proof.
  intros Hasc. unfold ids. rewrite fmap_snoc. simpl.
  apply ascending_app; [done|].
  apply Forall_forall. intros z (t & -> & Ht)%list_elem_of_fmap.
  by apply ascending_below_next.
Qed.

(** C2 (as the code has it).  From a store whose tasks have pairwise-distinct
    ids:
    - [deleteTaskByID] leaves a store whose tasks have pairwise-distinct ids;
    - [saveTask] does so when it updates (an id other than 0), and when it
      creates provided no stored task has the id it assigns, the id of the
      last task plus one (that id taken to be a safe integer); when a stored
      task has that id, a [saveTask] with id 0 that returns leaves two tasks
      with one id;
    - [insertBulkData] leaves the store as it was or holding the array it was
      given, the latter whenever it returns, so the ids it leaves are
      pairwise distinct when those of the array are;
    - when the stored ids ascend, [deleteTaskByID] and an updating [saveTask]
      leave a store whose ids ascend, and so does a creating [saveTask] when
      the last id is a safe integer: no stored id then reaches the id it
      assigns. *)
Theorem distinct_ids_preserved (w : World) (data : list TaskType.t) :
  stores w data ->
  NoDup (ids data) ->
  (forall id r w',
     DB.deleteTaskByID id w = (r, w') ->
     exists data', stores w' data' /\ NoDup (ids data')) /\
  (forall id title completed r w',
     id <> Int 0 \/ (last_id_safe data /\ last_id_plus_one data ∉ ids data) ->
     DB.saveTask id title completed w = (r, w') ->
     exists data', stores w' data' /\ NoDup (ids data')) /\
  (last_id_safe data ->
   last_id_plus_one data ∈ ids data ->
   forall title completed n w',
     DB.saveTask (Int 0) title completed w = (Return n, w') ->
     exists data', stores w' data' /\ ~ NoDup (ids data')) /\
  (forall b r w',
     DB.insertBulkData b w = (r, w') ->
     exists data',
       stores w' data' /\
       (r = Return tt -> bulk_denotes b data') /\
       ((forall tasks, bulk_denotes b tasks -> NoDup (ids tasks)) ->
        NoDup (ids data'))) /\
  (ascending (ids data) ->
   (forall id r w',
      DB.deleteTaskByID id w = (r, w') ->
      exists data', stores w' data' /\ ascending (ids data')) /\
   (forall id title completed r w',
      id <> Int 0 \/ last_id_safe data ->
      DB.saveTask id title completed w = (r, w') ->
      exists data', stores w' data' /\ ascending (ids data')) /\
   (last_id_safe data ->
    (last_id_plus_one data ∉ ids data) /\
    (forall t, t ∈ data -> TaskType.id t < last_id_plus_one data))).
Proof.
  intros Hst Hnd. split; [|split; [|split; [|split]]].
  - intros id r w' Hrun.
    destruct (deleteTaskByID_file w w' data id r Hst Hrun) as [Hf|[k Hf]].
    + exists data. split; [by eapply stores_same_file | done].
    + eexists. split; [by eapply stores_written|].
      eapply sublist_NoDup; [exact Hnd | apply ids_filter_sublist].
  - intros id title completed r w' Hside Hrun.
    destruct (saveTask_file w w' data id title completed r Hst Hrun)
      as [Hf|[[-> Hf]|(i & existing & Hid & Hi & Hf)]].
    + exists data. split; [by eapply stores_same_file | done].
    + destruct Hside as [?|[_ Hnew]]; [done|].
      eexists. split; [by eapply stores_written|].
      by apply distinct_after_append.
    + eexists. split; [by eapply stores_written|]. by rewrite ids_overwrite.
  - intros _ Hin title completed n w' Hrun.
    eexists. split; [by eapply saveTask_new_returns|].
    rewrite distinct_after_append by done. tauto.
  - intros b r w' Hrun.
    destruct (insertBulkData_file w w' b r Hrun) as [[Hf Hr]|(tasks & Hb & Hf)].
    + exists data. split; [by eapply stores_same_file|]. split; done.
    + exists tasks. split; [by eapply stores_written|]. split; eauto.
  - intros Hasc. split; [|split].
    + intros id r w' Hrun.
      destruct (deleteTaskByID_file w w' data id r Hst Hrun) as [Hf|[k Hf]].
      * exists data. split; [by eapply stores_same_file | done].
      * eexists. split; [by eapply stores_written|].
        eapply ascending_sublist; [apply ids_filter_sublist | exact Hasc].
    + intros id title completed r w' _ Hrun.
      destruct (saveTask_file w w' data id title completed r Hst Hrun)
        as [Hf|[[-> Hf]|(i & existing & Hid & Hi & Hf)]].
      * exists data. split; [by eapply stores_same_file | done].
      * eexists. split; [by eapply stores_written|].
        by apply ascending_after_append.
      * eexists. split; [by eapply stores_written|]. by rewrite ids_overwrite.
    + intros _. split; [|by apply ascending_below_next].
      intros (t & Heq & Ht)%list_elem_of_fmap.
      pose proof (ascending_below_next data Hasc t Ht). lia.
Qed.

End Claims.

(** ** The reference runtime satisfies the laws *)

Section Codec.
Import RefRuntime.

Lemma app_cons (c : ascii) (s t : string) : String c s +:+ t = String c (s +:+ t).
Proof. reflexivity. Qed.

Lemma app_empty (t : string) : EmptyString +:+ t = t.
Proof. reflexivity. Qed.

Lemma app_assoc_string (s t u : string) : (s +:+ t) +:+ u = s +:+ (t +:+ u).
Proof. induction s as [|c s IH]; [done|]. by rewrite !app_cons, IH. Qed.

Lemma length_app_string (s t : string) :
  String.length (s +:+ t) = (String.length s + String.length t)%nat.
Proof. induction s as [|c s IH]; [done|]. rewrite app_cons. simpl. by rewrite IH. Qed.

(** *** Whitespace *)

Lemma skip_ws_spaces (n : nat) (s : string) :
  skip_ws (spaces n +:+ s) = skip_ws s.
Proof. induction n as [|n IH]; [done|]. simpl spaces. by rewrite app_cons. Qed.

Lemma skip_ws_newline (space depth : nat) (s : string) :
  skip_ws (newline space depth +:+ s) = skip_ws s.
Proof.
  unfold newline. destruct (Nat.min space 10); [done|].
  rewrite app_cons. simpl. apply skip_ws_spaces.
Qed.

Lemma skip_ws_colon_tail (space : nat) (s : string) :
  exists s', expect ":" (colon space +:+ s) = Some s' /\ skip_ws s' = skip_ws s.
Proof.
  unfold colon. destruct (Nat.min space 10).
  - exists s. by split.
  - exists (String " " s). by split.
Qed.

Lemma expect_newline (c : ascii) (space depth : nat) (s : string) :
  expect c (newline space depth +:+ s) = expect c s.
Proof. unfold expect. by rewrite skip_ws_newline. Qed.

Lemma expect_head (c : ascii) (s : string) :
  is_ws c = false -> expect c (String c s) = Some s.
Proof. intros Hc. unfold expect. simpl. by rewrite Hc, Ascii.eqb_refl. Qed.

(** *** String literals *)

Lemma parse_chars_escape_char (c : ascii) (s : string) :
  parse_chars (escape_char c +:+ s) = cons_char c (parse_chars s).
Proof.
  destruct c as [[|] [|] [|] [|] [|] [|] [|] [|]]; reflexivity.
Qed.

Lemma parse_chars_escape (t rest : string) :
  parse_chars (escape t +:+ String quote_mark rest) = Some (t, rest).
Proof.
  induction t as [|c t IH]; [done|].
  simpl escape. by rewrite app_assoc_string, parse_chars_escape_char, IH.
Qed.

Lemma parse_string_quote (t rest : string) :
  parse_string (quote t +:+ rest) = Some (t, rest).
Proof.
  unfold parse_string, quote. rewrite app_cons, app_assoc_string, app_cons, app_empty.
  change (skip_ws (String quote_mark ?s)) with (String quote_mark s).
  cbv iota beta. rewrite Ascii.eqb_refl. apply parse_chars_escape.
Qed.

Lemma parse_string_newline (space depth : nat) (s : string) :
  parse_string (newline space depth +:+ s) = parse_string s.
Proof. unfold parse_string. by rewrite skip_ws_newline. Qed.

Lemma expect_key_quote (space depth : nat) (key rest : string) :
  expect_key key (newline space depth +:+ quote key +:+ rest) = Some rest.
Proof.
  unfold expect_key.
  by rewrite parse_string_newline, parse_string_quote, String.eqb_refl.
Qed.

(** *** Integer literals *)

Lemma span_number_uint (d : uint) (s : string) :
  span_number s = (EmptyString, s) ->
  span_number (NilEmpty.string_of_uint d +:+ s) = (NilEmpty.string_of_uint d, s).
Proof.
  intros Hs. induction d; simpl NilEmpty.string_of_uint;
    rewrite ?app_cons, ?app_empty; [done|..]; simpl; by rewrite IHd.
Qed.

Lemma skip_ws_uint (d : uint) (s : string) :
  d <> Nil ->
  skip_ws (NilEmpty.string_of_uint d +:+ s) = NilEmpty.string_of_uint d +:+ s.
Proof. destruct d; done. Qed.

Lemma to_int_cases (z : Z) :
  exists d, d <> Nil /\ (Z.to_int z = Pos d \/ Z.to_int z = Neg d).
Proof.
  destruct z as [|p|p]; simpl.
  - exists (D0 Nil). split; [done | by left].
  - exists (Pos.to_uint p). split; [apply Unsigned.to_uint_nonnil | by left].
  - exists (Pos.to_uint p). split; [apply Unsigned.to_uint_nonnil | by right].
Qed.

Lemma span_number_string_of_Z (z : Z) (s : string) :
  span_number s = (EmptyString, s) ->
  span_number (skip_ws (string_of_Z z +:+ s)) = (string_of_Z z, s).
Proof.
  intros Hs. unfold string_of_Z.
  destruct (to_int_cases z) as (d & Hd & [-> | ->]); simpl NilZero.string_of_int;
    unfold NilZero.string_of_uint.
  - destruct d; try done; rewrite skip_ws_uint by done; by apply span_number_uint.
  - rewrite app_cons.
    change (skip_ws (String "-" ?x)) with (String "-" x).
    simpl span_number.
    destruct d; try done; by rewrite span_number_uint.
Qed.

Lemma Z_of_lexeme_string_of_Z (z : Z) : Z_of_lexeme (string_of_Z z) = Some z.
Proof.
  unfold Z_of_lexeme, string_of_Z at 1.
  rewrite NilZero.isi.
  - rewrite DecimalZ.of_to. by rewrite String.eqb_refl.
  - destruct (to_int_cases z) as (d & Hd & [-> | ->]); congruence.
  - destruct (to_int_cases z) as (d & Hd & [-> | ->]); congruence.
Qed.

Lemma parse_int_string_of_Z (z : Z) (s : string) :
  span_number s = (EmptyString, s) ->
  parse_int (string_of_Z z +:+ s) = Some (z, s).
Proof.
  intros Hs. unfold parse_int.
  by rewrite span_number_string_of_Z, Z_of_lexeme_string_of_Z.
Qed.

Lemma parse_int_skip (s s' : string) :
  skip_ws s = skip_ws s' -> parse_int s = parse_int s'.
Proof. intros H. unfold parse_int. by rewrite H. Qed.

Lemma parse_string_skip (s s' : string) :
  skip_ws s = skip_ws s' -> parse_string s = parse_string s'.
Proof. intros H. unfold parse_string. by rewrite H. Qed.

Lemma parse_bool_skip (s s' : string) :
  skip_ws s = skip_ws s' -> parse_bool s = parse_bool s'.
Proof. intros H. unfold parse_bool. by rewrite H. Qed.

Lemma parse_bool_string_of_bool (b : bool) (s : string) :
  parse_bool (string_of_bool b +:+ s) = Some (b, s).
Proof. by destruct b. Qed.

(** *** Records and arrays *)

Ltac pass_colon H :=
  match goal with
  | |- context [expect ":" (colon ?space +:+ ?s)] =>
      let s' := fresh "s" in
      destruct (skip_ws_colon_tail space s) as (s' & -> & H)
  end.

Lemma parse_task_stringify (space : nat) (t : TaskType.t) (rest : string) :
  parse_task (stringify_task space t +:+ rest) = Some (t, rest).
Proof.
  unfold stringify_task. rewrite !app_assoc_string.
  rewrite !(app_cons _ EmptyString), !app_empty.
  unfold parse_task.
  rewrite expect_head by done. simpl mbind.
  rewrite expect_key_quote. simpl mbind.
  pass_colon Hs1. simpl mbind.
  rewrite (parse_int_skip _ _ Hs1), parse_int_string_of_Z by done. simpl mbind.
  rewrite expect_key_quote. simpl mbind.
  pass_colon Hs2. simpl mbind.
  rewrite (parse_string_skip _ _ Hs2), parse_string_quote. simpl mbind.
  rewrite expect_key_quote. simpl mbind.
  pass_colon Hs3. simpl mbind.
  rewrite (parse_bool_skip _ _ Hs3), parse_bool_string_of_bool. simpl mbind.
  rewrite expect_newline, expect_head by done. simpl mbind.
  by destruct t.
Qed.

Lemma parse_task_skip (s s' : string) :
  skip_ws s = skip_ws s' -> parse_task s = parse_task s'.
Proof. intros H. unfold parse_task, expect. by rewrite H. Qed.

Lemma stringify_task_head (space : nat) (t : TaskType.t) :
  exists s, stringify_task space t = String "{" s.
Proof. unfold stringify_task. rewrite app_cons, app_empty. eauto. Qed.

Lemma stringify_items_head (space : nat) (t : TaskType.t) (rest : list TaskType.t) :
  exists s, stringify_items space t rest = String "{" s.
Proof.
  destruct (stringify_task_head space t) as [s Hs].
  destruct rest; simpl; rewrite Hs, app_cons; eauto.
Qed.

Lemma stringify_items_length (space : nat) (t : TaskType.t)
    (rest : list TaskType.t) :
  (length rest < String.length (stringify_items space t rest))%nat.
Proof.
  revert t. induction rest as [|t' rest IH]; intros t.
  - destruct (stringify_items_head space t []) as [s ->]. simpl. lia.
  - simpl stringify_items. destruct (stringify_task_head space t) as [s ->].
    rewrite !length_app_string. specialize (IH t'). simpl. lia.
Qed.

Lemma parse_items_stringify (space : nat) (rest : list TaskType.t) :
  forall (t : TaskType.t) (fuel : nat) (s : string),
    (length rest < fuel)%nat ->
    skip_ws s = skip_ws (stringify_items space t rest) ->
    parse_items fuel s = Some (t :: rest, EmptyString).
Proof.
  induction rest as [|t' rest IH]; intros t fuel s Hfuel Hs;
    (destruct fuel as [|fuel]; [simpl in Hfuel; lia|]);
    simpl parse_items; rewrite (parse_task_skip _ _ Hs); simpl stringify_items;
    rewrite parse_task_stringify; simpl mbind.
  - rewrite skip_ws_newline. reflexivity.
  - rewrite app_empty, (IH t' fuel); [done| |].
    + simpl in Hfuel. lia.
    + apply skip_ws_newline.
Qed.

Lemma parse_stringify_ref (data : list TaskType.t) (space : nat) :
  parse (stringify data space) = Some (JArray data).
Proof.
  destruct data as [|t rest]; [reflexivity|].
  unfold stringify, parse. rewrite app_cons, app_empty.
  change (skip_ws (String "[" ?x)) with (String "[" x). cbv iota beta.
  rewrite skip_ws_newline.
  destruct (stringify_items_head space t rest) as [s Hs]. rewrite Hs.
  change (skip_ws (String "{" s)) with (String "{" s). cbv iota beta.
  rewrite <- Hs.
  rewrite (parse_items_stringify space rest t _ _).
  - reflexivity.
  - rewrite length_app_string.
    pose proof (stringify_items_length space t rest). lia.
  - apply skip_ws_newline.
Qed.

Global Instance node_laws : RuntimeLaws node.
Proof.
  split.
  - apply parse_stringify_ref.
  - reflexivity.
Qed.

End Codec.

(** ** The theorems at work on sample stores *)

Lemma stores_disk (data : list TaskType.t) : stores (Sample.disk data) data.
Proof. eexists. split; [reflexivity | apply parse_stringify_ref]. Qed.

Lemma chores_last_id_safe : last_id_safe Sample.chores.
Proof. intros t [= <-]. unfold safe_integer. simpl. lia. Qed.

Lemma imported_low_last_id_safe : last_id_safe Sample.imported_low_last.
Proof. intros t [= <-]. unfold safe_integer. simpl. lia. Qed.

(** C1, the claim as stated fails: with the stored ids 5, 2 the new task gets
    the id 3, while the maximum id plus one is 6. *)
Lemma saveTask_new_id_not_max_plus_one :
  stores (Sample.disk Sample.imported) Sample.imported /\
  (forall t, t ∈ Sample.imported -> TaskType.title t <> "ccc") /\
  fst (DB.saveTask (Int 0) "ccc" false (Sample.disk Sample.imported)) =
    Return (Int 3) /\
  max_id_plus_one Sample.imported = 6 /\
  fst (DB.saveTask (Int 0) "ccc" false (Sample.disk Sample.imported)) <>
    Return (Int (max_id_plus_one Sample.imported)).
Proof.
  split; [apply stores_disk|]. split.
  { intros t Ht. apply list_elem_of_In in Ht. simpl in Ht.
    destruct Ht as [<-|[<-|[]]]; discriminate. }
  split; [by vm_compute|]. split; [reflexivity|]. by vm_compute.
Qed.

Ltac member_cases H :=
  apply list_elem_of_In in H; simpl in H;
  repeat match type of H with
         | _ \/ _ => destruct H as [<-|H]
         | False => destruct H
         end.

Lemma saveTask_new_assigns_last_id_plus_one_witness :
  let w := Sample.disk Sample.chores in
  let data' := (Sample.chores ++ [TaskType.mk 3 "feed the cat" false])%list in
  stores w Sample.chores /\
  last_id_safe Sample.chores /\
  (3 <= String.length "feed the cat")%nat /\
  (forall t, t ∈ Sample.chores -> TaskType.title t <> "feed the cat") /\
  DB.saveTask (Int 0) "feed the cat" false w =
    (Return (Int 3), after_rewrite (JSON_stringify data' 2) w) /\
  stores (after_rewrite (JSON_stringify data' 2) w) data' /\
  3 = max_id_plus_one Sample.chores.
Proof.
  intros w data'.
  assert (Hst : stores w Sample.chores) by apply stores_disk.
  assert (Hlen : (3 <= String.length "feed the cat")%nat) by (simpl; lia).
  assert (Hfresh : forall t, t ∈ Sample.chores ->
                     TaskType.title t <> "feed the cat").
  { intros t Ht. member_cases Ht; discriminate. }
  destruct (saveTask_new_assigns_last_id_plus_one w Sample.chores
              "feed the cat" false Hst chores_last_id_safe eq_refl Hlen Hfresh)
    as (Hrun & Hst' & _ & Hmax & _).
  split; [exact Hst|]. split; [exact chores_last_id_safe|].
  split; [exact Hlen|]. split; [exact Hfresh|].
  split; [exact Hrun|]. split; [exact Hst'|].
  apply Hmax. intros t Ht. member_cases Ht; by vm_compute.
Defined.

Lemma saveTask_duplicate_title_throws_witness :
  let w := Sample.disk Sample.chores in
  stores w Sample.chores /\
  NoDup (ids Sample.chores) /\
  NoDup (titles Sample.chores) /\
  (exists e cs,
     DB.saveTask (Int 0) "water the plants" false w = (Throw e, after_calls cs w) /\
     read_only_calls cs) /\
  (exists e cs,
     DB.saveTask (Int 1) "water the plants" false w = (Throw e, after_calls cs w) /\
     read_only_calls cs) /\
  (forall id title completed r w',
     DB.saveTask id title completed w = (r, w') ->
     exists data', stores w' data' /\ NoDup (titles data')).
Proof.
  intros w.
  assert (Hst : stores w Sample.chores) by apply stores_disk.
  assert (Hids : NoDup (ids Sample.chores)).
  { apply (bool_decide_unpack _). by vm_compute. }
  assert (Htitles : NoDup (titles Sample.chores)).
  { apply (bool_decide_unpack _). by vm_compute. }
  destruct (saveTask_duplicate_title_throws w Sample.chores "water the plants" Hst)
    as (Htaken & Hother & _ & Hkeep).
  assert (Ht : TaskType.mk 2 "water the plants" true ∈ Sample.chores)
    by (apply list_elem_of_In; simpl; auto).
  split; [exact Hst|]. split; [exact Hids|]. split; [exact Htitles|].
  split; [|split].
  - apply (Htaken _ (Int 0) false Ht eq_refl). by left.
  - apply (Hother Hids 1%nat 0%nat (TaskType.mk 2 "water the plants" true)
             (TaskType.mk 1 "wash the dishes" false) false);
      [reflexivity | reflexivity | lia | reflexivity].
  - exact (Hkeep Hids Htitles).
Defined.

Lemma saveTask_short_title_throws_witness :
  (String.length "ab" < 3)%nat /\
  (exists e, DB.saveTask (Int 0) "ab" true Sample.blank = (Throw e, Sample.blank)) /\
  Task.new "ab" true Sample.blank =
    (Throw (Error "Title must be a string and contain at least 3 characters"),
     Sample.blank).
Proof.
  assert (Hlen : (String.length "ab" < 3)%nat) by (simpl; lia).
  destruct (saveTask_short_title_throws (Int 0) "ab" true Sample.blank Hlen)
    as (Hthrow & _ & Hnew).
  split; [exact Hlen|]. split; [exact Hthrow | exact Hnew].
Defined.

Lemma deleteTaskByID_not_found_witness :
  let w := Sample.disk Sample.chores in
  stores w Sample.chores /\
  (forall t, t ∈ Sample.chores -> TaskType.id t <> 7) /\
  DB.deleteTaskByID (IdString "7") w =
    (Return false, after_calls [readFileSync_call] w) /\
  stores (after_calls [readFileSync_call] w) Sample.chores.
Proof.
  intros w.
  assert (Hst : stores w Sample.chores) by apply stores_disk.
  assert (Hnone : forall t, t ∈ Sample.chores -> TaskType.id t <> 7).
  { intros t Ht. member_cases Ht; discriminate. }
  split; [exact Hst|]. split; [exact Hnone|].
  apply (deleteTaskByID_not_found w Sample.chores (IdString "7") 7 Hst);
    [reflexivity | lia | exact Hnone].
Defined.

Lemma insertBulkData_getAllTasks_roundtrip_witness :
  let text := JSON_stringify Sample.chores 2 in
  let w1 := mkWorld (Some text) true [writeFileSync_call text] in
  DB.insertBulkData (DB.BulkArray Sample.chores) Sample.blank = (Return tt, w1) /\
  DB.getAllTasks w1 =
    (Return Sample.chores, after_calls [existsSync_call; readFileSync_call] w1).
Proof.
  exact (insertBulkData_getAllTasks_roundtrip Sample.blank Sample.chores eq_refl).
Defined.

Lemma saveTask_unknown_id_throws_witness :
  let w := Sample.disk Sample.chores in
  stores w Sample.chores /\
  (forall id, id ∈ [Int 9; Int (-3)] ->
     id <> Int 0 /\ forall t, t ∈ Sample.chores -> Int (TaskType.id t) <> id) /\
  DB.saveTask (Int 9) "feed the cat" false w =
    (Throw (Error "Task not found"),
     after_calls [existsSync_call; readFileSync_call] w) /\
  DB.saveTask (Int 9) "ab" false w =
    (Throw (Error "title must be a string and at least three characters long."),
     w) /\
  DB.saveTask (Int (-3)) "feed the cat" false w =
    (Throw (Error "id must be an integer and greater than or equal to zero."),
     w).
Proof.
  intros w.
  assert (Hst : stores w Sample.chores) by apply stores_disk.
  assert (Hids : forall id, id ∈ [Int 9; Int (-3)] ->
            id <> Int 0 /\
            forall t, t ∈ Sample.chores -> Int (TaskType.id t) <> id).
  { intros id Hid. apply list_elem_of_In in Hid. simpl in Hid.
    destruct Hid as [<-|[<-|[]]]; (split; [discriminate|]);
      intros t Ht; member_cases Ht; discriminate. }
  assert (Hnine : Int 9 ∈ [Int 9; Int (-3)]) by (apply list_elem_of_In; simpl; auto).
  assert (Hneg : Int (-3) ∈ [Int 9; Int (-3)])
    by (apply list_elem_of_In; simpl; auto).
  split; [exact Hst|]. split; [exact Hids|]. split; [|split].
  - destruct (saveTask_unknown_id_throws w Sample.chores (Int 9) "feed the cat"
                false Hst (proj1 (Hids _ Hnine)) (proj2 (Hids _ Hnine)))
      as (_ & _ & _ & Hfound).
    apply Hfound; [reflexivity | simpl; lia].
  - destruct (saveTask_unknown_id_throws w Sample.chores (Int 9) "ab"
                false Hst (proj1 (Hids _ Hnine)) (proj2 (Hids _ Hnine)))
      as (_ & _ & Htitle & _).
    apply Htitle; [reflexivity | simpl; lia].
  - destruct (saveTask_unknown_id_throws w Sample.chores (Int (-3)) "feed the cat"
                false Hst (proj1 (Hids _ Hneg)) (proj2 (Hids _ Hneg)))
      as (_ & Hid & _).
    apply Hid. reflexivity.
Defined.

Lemma saveTask_update_frame_witness :
  let w := Sample.disk Sample.chores in
  let data' :=
    [TaskType.mk 1 "wash the dishes" false; TaskType.mk 2 "water the cactus" false] in
  stores w Sample.chores /\
  DB.saveTask (Int 2) "water the cactus" false w =
    (Return (Int 2), after_rewrite (JSON_stringify data' 2) w) /\
  stores (after_rewrite (JSON_stringify data' 2) w) data'.
Proof.
  intros w data'.
  assert (Hst : stores w Sample.chores) by apply stores_disk.
  split; [exact Hst|].
  destruct (saveTask_update_frame w Sample.chores 2 "water the cactus" false Hst)
    as (i & existing & Hi & Hid & Hfirst & Hrun & Hst' & _);
    [reflexivity | lia | simpl; lia | | |].
  - exists (TaskType.mk 2 "water the plants" true).
    split; [apply list_elem_of_In; simpl; auto | reflexivity].
  - intros t Ht. member_cases Ht; [discriminate | reflexivity].
  - assert (i = 1%nat) as ->.
    { destruct i as [|[|i]]; simpl in Hi; [|done|done].
      injection Hi as <-. simpl in Hid. lia. }
    split; [exact Hrun | exact Hst'].
Defined.

Lemma deleteTaskByID_rejects_non_positive_witness :
  (forall k, to_number (IdString "0") = Int k -> k <= 0) /\
  DB.deleteTaskByID (IdString "0") (Sample.disk Sample.placeholder) =
    (Throw (Error "task id must be a positive integer"),
     Sample.disk Sample.placeholder).
Proof.
  assert (Hid : forall k, to_number (IdString "0") = Int k -> k <= 0).
  { intros k Hk. vm_compute in Hk. injection Hk as <-. lia. }
  split; [exact Hid|].
  apply (deleteTaskByID_rejects_non_positive (IdString "0")
           (Sample.disk Sample.placeholder) Hid).
Defined.

Lemma distinct_ids_preserved_witness :
  (let w := Sample.disk Sample.chores in
   stores w Sample.chores /\
   NoDup (ids Sample.chores) /\
   ascending (ids Sample.chores) /\
   last_id_safe Sample.chores /\
   (last_id_plus_one Sample.chores ∉ ids Sample.chores) /\
   (forall id r w',
      DB.deleteTaskByID id w = (r, w') ->
      exists data', stores w' data' /\ NoDup (ids data')) /\
   (forall title completed r w',
      DB.saveTask (Int 0) title completed w = (r, w') ->
      exists data', stores w' data' /\ NoDup (ids data')) /\
   (forall id title completed r w',
      DB.saveTask id title completed w = (r, w') ->
      exists data', stores w' data' /\ ascending (ids data'))) /\
  (let w := Sample.disk Sample.imported_low_last in
   stores w Sample.imported_low_last /\
   NoDup (ids Sample.imported_low_last) /\
   last_id_safe Sample.imported_low_last /\
   last_id_plus_one Sample.imported_low_last ∈ ids Sample.imported_low_last /\
   (forall title completed n w',
      DB.saveTask (Int 0) title completed w = (Return n, w') ->
      exists data', stores w' data' /\ ~ NoDup (ids data'))).
Proof.
  split; intros w.
  - assert (Hst : stores w Sample.chores) by apply stores_disk.
    assert (Hasc : ascending (ids Sample.chores)).
    { simpl. repeat constructor; lia. }
    assert (Hnd : NoDup (ids Sample.chores)) by by apply ascending_NoDup.
    assert (Hnew : last_id_plus_one Sample.chores ∉ ids Sample.chores).
    { apply (bool_decide_unpack _). by vm_compute. }
    destruct (distinct_ids_preserved w Sample.chores Hst Hnd)
      as (Hdel & Hsave & _ & _ & Hascending).
    destruct (Hascending Hasc) as (_ & Hkeep & _).
    split; [exact Hst|]. split; [exact Hnd|]. split; [exact Hasc|].
    split; [exact chores_last_id_safe|]. split; [exact Hnew|].
    split; [exact Hdel|]. split.
    + intros title completed r w'. apply Hsave. right.
      split; [exact chores_last_id_safe | exact Hnew].
    + intros id title completed r w'. apply Hkeep. right.
      exact chores_last_id_safe.
  - assert (Hst : stores w Sample.imported_low_last) by apply stores_disk.
    assert (Hnd : NoDup (ids Sample.imported_low_last)).
    { apply (bool_decide_unpack _). by vm_compute. }
    assert (Hin : last_id_plus_one Sample.imported_low_last
                  ∈ ids Sample.imported_low_last).
    { apply (bool_decide_unpack _). by vm_compute. }
    destruct (distinct_ids_preserved w Sample.imported_low_last Hst Hnd)
      as (_ & _ & Hrepeat & _).
    split; [exact Hst|]. split; [exact Hnd|].
    split; [exact imported_low_last_id_safe|]. split; [exact Hin|].
    exact (Hrepeat imported_low_last_id_safe Hin).
Defined.

Ltac refute_NoDup :=
  let H := fresh in
  intros H; apply (bool_decide_pack _) in H; vm_compute in H; exact H.

(** C2, the claim as stated fails.  With the stored ids 3, 2, pairwise
    distinct, [saveTask] with id 0 appends a task with the id 3; and
    [insertBulkData] stores an array in which two tasks have the id 1. *)
Lemma distinct_ids_not_preserved :
  (let w := Sample.disk Sample.imported_low_last in
   let data' := (Sample.imported_low_last ++ [TaskType.mk 3 "ccc" false])%list in
   stores w Sample.imported_low_last /\
   NoDup (ids Sample.imported_low_last) /\
   exists w',
     DB.saveTask (Int 0) "ccc" false w = (Return (Int 3), w') /\
     stores w' data' /\
     ~ NoDup (ids data')) /\
  (let w := Sample.disk Sample.chores in
   stores w Sample.chores /\
   NoDup (ids Sample.chores) /\
   exists w',
     DB.insertBulkData (DB.BulkArray Sample.twins) w = (Return tt, w') /\
     stores w' Sample.twins /\
     ~ NoDup (ids Sample.twins)).
Proof.
  split; intros w.
  - intros data'. split; [apply stores_disk|]. split.
    { apply (bool_decide_unpack _). by vm_compute. }
    eexists. split; [by vm_compute|]. split; [|refute_NoDup].
    eexists. split; [reflexivity | by vm_compute].
  - split; [apply stores_disk|]. split.
    { apply (bool_decide_unpack _). by vm_compute. }
    eexists. split; [by vm_compute|]. split; [|refute_NoDup].
    eexists. split; [reflexivity | by vm_compute].
Qed.

(** C9, the claim as stated fails for ids that are not above 0.  A stored
    task with the id 0 is not updated by [saveTask] with id 0: a second task
    is appended and the first keeps its title.  A stored task with the id -1
    is not updated by [saveTask] with id -1: the call throws. *)
Lemma saveTask_update_frame_fails_below_one :
  (let w := Sample.disk Sample.placeholder in
   let data' := [TaskType.mk 0 "aaa" false; TaskType.mk 1 "bbb" true] in
   stores w Sample.placeholder /\
   (exists t, t ∈ Sample.placeholder /\ TaskType.id t = 0) /\
   (forall t, t ∈ Sample.placeholder -> TaskType.title t <> "bbb") /\
   exists w',
     DB.saveTask (Int 0) "bbb" true w = (Return (Int 1), w') /\
     stores w' data' /\
     length data' <> length Sample.placeholder) /\
  (let w := Sample.disk Sample.negative in
   stores w Sample.negative /\
   (exists t, t ∈ Sample.negative /\ TaskType.id t = -1) /\
   (forall t, t ∈ Sample.negative -> TaskType.title t <> "bbb") /\
   DB.saveTask (Int (-1)) "bbb" true w =
     (Throw (Error "id must be an integer and greater than or equal to zero."),
      w)).
Proof.
  split; intros w.
  - intros data'. split; [apply stores_disk|]. split.
    { eexists. split; [by left | reflexivity]. }
    split.
    { intros t Ht. member_cases Ht; discriminate. }
    eexists. split; [by vm_compute|]. split; [|simpl; lia].
    eexists. split; [reflexivity | by vm_compute].
  - split; [apply stores_disk|]. split.
    { eexists. split; [by left | reflexivity]. }
    split.
    { intros t Ht. member_cases Ht; discriminate. }
    reflexivity.
Qed.

(** C3, the claim as stated fails where stored tasks share an id.  With the
    tasks 1 'aaa' and 1 'bbb' stored, [saveTask] with the id 1, the id of the
    other task, and the title 'bbb' returns and leaves two tasks titled
    'bbb'.  And with the ids 3, 2 stored, [saveTask] with id 0 stores 'ccc'
    under a second id 3, after which [saveTask] with the id 3 and the title
    'ccc' returns and leaves two tasks titled 'ccc'. *)
Lemma saveTask_duplicate_title_succeeds :
  (let w := Sample.disk Sample.twins in
   let data' := [TaskType.mk 1 "bbb" true; TaskType.mk 1 "bbb" false] in
   stores w Sample.twins /\
   Sample.twins !! 0%nat = Some (TaskType.mk 1 "aaa" false) /\
   Sample.twins !! 1%nat = Some (TaskType.mk 1 "bbb" false) /\
   exists w',
     DB.saveTask (Int 1) "bbb" true w = (Return (Int 1), w') /\
     stores w' data' /\
     ~ NoDup (titles data')) /\
  (let w := Sample.disk Sample.imported_low_last in
   let data' := [TaskType.mk 3 "ccc" true; TaskType.mk 2 "bbb" false;
                 TaskType.mk 3 "ccc" false] in
   stores w Sample.imported_low_last /\
   NoDup (ids Sample.imported_low_last) /\
   NoDup (titles Sample.imported_low_last) /\
   exists w1 w2,
     DB.saveTask (Int 0) "ccc" false w = (Return (Int 3), w1) /\
     DB.saveTask (Int 3) "ccc" true w1 = (Return (Int 3), w2) /\
     stores w2 data' /\
     ~ NoDup (titles data')).
Proof.
  split; intros w data'.
  - split; [apply stores_disk|]. split; [reflexivity|]. split; [reflexivity|].
    eexists. split; [by vm_compute|]. split; [|refute_NoDup].
    eexists. split; [reflexivity | by vm_compute].
  - split; [apply stores_disk|]. split.
    { apply (bool_decide_unpack _). by vm_compute. }
    split.
    { apply (bool_decide_unpack _). by vm_compute. }
    eexists _, _. split; [by vm_compute|]. split; [by vm_compute|].
    split; [|refute_NoDup].
    eexists. split; [reflexivity | by vm_compute].
Qed.

(** C8, the claim as stated fails.  For an id other than 0 that no stored
    task has, the error is not 'Task not found' when the id is below 0 or
    not an integer, and when the title is shorter than 3 characters: the
    checks of the arguments come before the lookup. *)
Lemma saveTask_unknown_id_other_error :
  let w := Sample.disk Sample.chores in
  let id_error :=
    Error "id must be an integer and greater than or equal to zero." in
  let title_too_short :=
    Error "title must be a string and at least three characters long." in
  stores w Sample.chores /\
  (forall id, id ∈ [Int (-3); NonInt false; Int 9] ->
     id <> Int 0 /\ forall t, t ∈ Sample.chores -> Int (TaskType.id t) <> id) /\
  DB.saveTask (Int (-3)) "feed the cat" false w = (Throw id_error, w) /\
  DB.saveTask (NonInt false) "feed the cat" false w = (Throw id_error, w) /\
  DB.saveTask (Int 9) "ab" false w = (Throw title_too_short, w) /\
  id_error <> Error "Task not found" /\
  title_too_short <> Error "Task not found".
Proof.
  intros w id_error title_too_short.
  split; [apply stores_disk|]. split.
  { intros id Hid. apply list_elem_of_In in Hid. simpl in Hid.
    destruct Hid as [<-|[<-|[<-|[]]]]; (split; [discriminate|]);
      intros t Ht; member_cases Ht; discriminate. }
  split; [reflexivity|]. split; [reflexivity|]. split; [reflexivity|].
  split; discriminate.
Qed.

(** * Further properties of the store *)

Section Lookups.
Context `{R : Runtime}.

(** The three readers on a file that exists: one existence test, one read,
    and whatever the parsed text gives. *)
Lemma getTaskByID_loaded (w : World) (data : list TaskType.t) (id : id_arg) :
  stores w data ->
  DB.getTaskByID id w =
    (Return (snd <$> list_find (fun t => Int (TaskType.id t) = to_number id) data),
     after_calls [existsSync_call; readFileSync_call] w).
Proof.
  intros (raw & Hfile & Hparse). destruct w as [f wr cs]. simpl in Hfile. subst f.
  unfold DB.getTaskByID. run_js. rewrite Hparse. simpl. by rewrite <- app_assoc.
Qed.

Lemma getTaskByTitle_loaded (w : World) (data : list TaskType.t) (title : string) :
  stores w data ->
  DB.getTaskByTitle title w =
    (Return (snd <$> list_find (fun t => TaskType.title t = title) data),
     after_calls [existsSync_call; readFileSync_call] w).
Proof.
  intros (raw & Hfile & Hparse). destruct w as [f wr cs]. simpl in Hfile. subst f.
  unfold DB.getTaskByTitle. run_js. rewrite Hparse. simpl. by rewrite <- app_assoc.
Qed.

Lemma getAllTasks_loaded (w : World) (data : list TaskType.t) :
  stores w data ->
  DB.getAllTasks w =
    (Return data, after_calls [existsSync_call; readFileSync_call] w).
Proof.
  intros (raw & Hfile & Hparse). destruct w as [f wr cs]. simpl in Hfile. subst f.
  unfold DB.getAllTasks. run_js. rewrite Hparse. simpl. by rewrite <- app_assoc.
Qed.

(** What [find] gives, read as a statement about the array. *)
Lemma find_first {A} (P : A -> Prop) `{!forall x, Decision (P x)} (l : list A) :
  (forall x, snd <$> list_find P l = Some x ->
     exists i, l !! i = Some x /\ P x /\
               forall j y, l !! j = Some y -> (j < i)%nat -> ~ P y) /\
  (snd <$> list_find P l = None <-> forall x, x ∈ l -> ~ P x).
Proof.
  split.
  - intros x Hx. destruct (list_find P l) as [[i y]|] eqn:Hfind; [|done].
    injection Hx as ->. apply list_find_Some in Hfind as (Hi & HP & Hfirst).
    exists i. split; [done|]. split; [done|]. intros j y Hj Hlt. by eapply Hfirst.
  - rewrite fmap_None, list_find_None, Forall_forall. done.
Qed.

(** X1.  On a store, [getTaskByID] makes no write and returns the first
    stored task whose id is the number asked for, null when there is none;
    for an id that is no integer it returns null rather than throwing. *)
Theorem getTaskByID_first_match (w : World) (data : list TaskType.t)
    (id : id_arg) :
  stores w data ->
  exists r,
    DB.getTaskByID id w =
      (Return r, after_calls [existsSync_call; readFileSync_call] w) /\
    (forall t, r = Some t ->
       exists i, data !! i = Some t /\ Int (TaskType.id t) = to_number id /\
                 forall j u, data !! j = Some u -> (j < i)%nat ->
                             Int (TaskType.id u) <> to_number id) /\
    (r = None <-> forall t, t ∈ data -> Int (TaskType.id t) <> to_number id) /\
    (Number.isInteger (to_number id) = false -> r = None).
Proof.
  intros Hst. eexists. split; [by apply getTaskByID_loaded|].
  destruct (find_first (fun t => Int (TaskType.id t) = to_number id) data)
    as [Hsome Hnone].
  split; [exact Hsome|]. split; [exact Hnone|].
  intros Hint. apply Hnone. intros t _ Heq. rewrite <- Heq in Hint. done.
Qed.

(** X2.  On a store, [getTaskByTitle] makes no write and returns the first
    stored task with exactly that title, null when there is none. *)
Theorem getTaskByTitle_first_match (w : World) (data : list TaskType.t)
    (title : string) :
  stores w data ->
  exists r,
    DB.getTaskByTitle title w =
      (Return r, after_calls [existsSync_call; readFileSync_call] w) /\
    (forall t, r = Some t ->
       exists i, data !! i = Some t /\ TaskType.title t = title /\
                 forall j u, data !! j = Some u -> (j < i)%nat ->
                             TaskType.title u <> title) /\
    (r = None <-> forall t, t ∈ data -> TaskType.title t <> title).
Proof.
  intros Hst. eexists. split; [by apply getTaskByTitle_loaded|].
  apply (find_first (fun t => TaskType.title t = title) data).
Qed.

End Lookups.

Section DamagedFiles.
Context `{R : Runtime}.

Ltac on_file w Hfile :=
  let f := fresh "f" in
  destruct w as [f ? ?]; simpl in Hfile; subst f.

Lemma saveTask_guards_pass (z : Z) (title : string) :
  0 <= z -> valid_title title ->
  Number.lt0 (Int z) || negb (Number.isInteger (Int z)) = false /\
  (String.length title <? 3)%nat = false.
Proof.
  intros Hz Hlen. split; [|by apply ltb_length_valid].
  apply saveTask_id_guard. eauto.
Qed.

(** X3.  A file whose text is not JSON is never repaired or overwritten by
    the readers, [saveTask] or [deleteTaskByID]: each throws after reading,
    with no write.  The three readers report 'Syntax error in DB file. ...',
    [deleteTaskByID] reports 'Cannot read DB file: ...', and [saveTask] lets
    the SyntaxError of [JSON.parse] through as it is. *)
Theorem malformed_file_is_left_alone (w : World) (raw : string) :
  file w = Some raw ->
  raw <> EmptyString ->
  JSON_parse raw = None ->
  let syntax := native_message (SyntaxError raw) in
  let w2 := after_calls [existsSync_call; readFileSync_call] w in
  DB.getAllTasks w = (Throw (Error ("Syntax error in DB file. " +:+ syntax)), w2) /\
  (forall id,
     DB.getTaskByID id w =
       (Throw (Error ("Syntax error in DB file. " +:+ syntax)), w2)) /\
  (forall title,
     DB.getTaskByTitle title w =
       (Throw (Error ("Syntax error in DB file. " +:+ syntax)), w2)) /\
  (forall z title completed,
     0 <= z -> valid_title title ->
     DB.saveTask (Int z) title completed w = (Throw (Native (SyntaxError raw)), w2)) /\
  (forall id k,
     to_number id = Int k -> 0 < k ->
     DB.deleteTaskByID id w =
       (Throw (Error ("Cannot read DB file: " +:+ syntax)),
        after_calls [readFileSync_call] w)).
Proof.
  intros Hfile Hraw Hparse syntax w2. subst syntax w2. on_file w Hfile.
  split; [|split; [|split; [|split]]].
  - unfold DB.getAllTasks. run_js. rewrite Hparse. simpl. by rewrite <- app_assoc.
  - intros id. unfold DB.getTaskByID. run_js. rewrite Hparse. simpl.
    by rewrite <- app_assoc.
  - intros title. unfold DB.getTaskByTitle. run_js. rewrite Hparse. simpl.
    by rewrite <- app_assoc.
  - intros z title completed Hz Hlen.
    destruct (saveTask_guards_pass z title Hz Hlen) as [Hid Htitle].
    unfold DB.saveTask. rewrite Hid, Htitle. run_js. rewrite Hparse. simpl.
    by rewrite <- app_assoc.
  - intros id k Hid Hk. unfold DB.deleteTaskByID. rewrite Hid.
    rewrite (proj2 (deleteTaskByID_id_guard (Int k))) by eauto.
    run_js. rewrite bool_decide_eq_false_2 by done. rewrite Hparse. reflexivity.
Qed.

(** X4.  A file that holds JSON other than an array: [getAllTasks] returns
    the empty array as if nothing were stored, while the other operations
    throw, each with no write: the two getters wrap the TypeError of the
    array access, [saveTask] lets it through, and [deleteTaskByID] reports
    'DB file is not in expected format'. *)
Theorem non_array_file (w : World) (raw : string) :
  file w = Some raw ->
  raw <> EmptyString ->
  JSON_parse raw = Some JOther ->
  let w2 := after_calls [existsSync_call; readFileSync_call] w in
  DB.getAllTasks w = (Return [], w2) /\
  (forall id,
     DB.getTaskByID id w =
       (Throw (Error ("Syntax error in DB file. " +:+ native_message TypeError)),
        w2)) /\
  (forall title,
     DB.getTaskByTitle title w =
       (Throw (Error ("Syntax error in DB file. " +:+ native_message TypeError)),
        w2)) /\
  (forall z title completed,
     0 <= z -> valid_title title ->
     DB.saveTask (Int z) title completed w = (Throw (Native TypeError), w2)) /\
  (forall id k,
     to_number id = Int k -> 0 < k ->
     DB.deleteTaskByID id w =
       (Throw (Error "Cannot read DB file: DB file is not in expected format"),
        after_calls [readFileSync_call] w)).
Proof.
  intros Hfile Hraw Hparse w2. subst w2. on_file w Hfile.
  split; [|split; [|split; [|split]]].
  - unfold DB.getAllTasks. run_js. rewrite Hparse. simpl. by rewrite <- app_assoc.
  - intros id. unfold DB.getTaskByID. run_js. rewrite Hparse. simpl.
    by rewrite <- app_assoc.
  - intros title. unfold DB.getTaskByTitle. run_js. rewrite Hparse. simpl.
    by rewrite <- app_assoc.
  - intros z title completed Hz Hlen.
    destruct (saveTask_guards_pass z title Hz Hlen) as [Hid Htitle].
    unfold DB.saveTask. rewrite Hid, Htitle. run_js. rewrite Hparse. simpl.
    by rewrite <- app_assoc.
  - intros id k Hid Hk. unfold DB.deleteTaskByID. rewrite Hid.
    rewrite (proj2 (deleteTaskByID_id_guard (Int k))) by eauto.
    run_js. rewrite bool_decide_eq_false_2 by done. rewrite Hparse. reflexivity.
Qed.

(** X5.  An empty file: [deleteTaskByID] does not parse it, takes the
    collection to be empty and returns false; [saveTask], which parses
    whatever it reads, throws the SyntaxError of [JSON.parse] on the empty
    text, and [getAllTasks] reports it as a syntax error in the file. *)
Theorem empty_file (w : World) :
  file w = Some EmptyString ->
  JSON_parse EmptyString = None ->
  (forall id k,
     to_number id = Int k -> 0 < k ->
     DB.deleteTaskByID id w = (Return false, after_calls [readFileSync_call] w)) /\
  (forall z title completed,
     0 <= z -> valid_title title ->
     DB.saveTask (Int z) title completed w =
       (Throw (Native (SyntaxError EmptyString)),
        after_calls [existsSync_call; readFileSync_call] w)) /\
  DB.getAllTasks w =
    (Throw (Error ("Syntax error in DB file. " +:+
                   native_message (SyntaxError EmptyString))),
     after_calls [existsSync_call; readFileSync_call] w).
Proof.
  intros Hfile Hparse. split; [|split].
  - intros id k Hid Hk.
    rewrite (deleteTaskByID_loaded w EmptyString [] id k Hfile); [done| |done..].
    by rewrite bool_decide_eq_true_2.
  - intros z title completed Hz Hlen. on_file w Hfile.
    destruct (saveTask_guards_pass z title Hz Hlen) as [Hid Htitle].
    unfold DB.saveTask. rewrite Hid, Htitle. run_js. rewrite Hparse. simpl.
    by rewrite <- app_assoc.
  - on_file w Hfile.
    unfold DB.getAllTasks. run_js. rewrite Hparse. simpl. by rewrite <- app_assoc.
Qed.

End DamagedFiles.

Section FreshAndFailing.
Context `{R : Runtime} {L : RuntimeLaws R}.

Lemma stores_empty_literal (w : World) : file w = Some "[]" -> stores w [].
Proof. intros Hf. exists "[]". split; [done | apply parse_empty_literal]. Qed.

(** X6.  [createDB] never overwrites: on a file that exists it returns false
    after the existence test alone.  It returns true only when the file was
    absent, and the file it leaves then holds the empty collection; when the
    disk refuses the write it throws 'Cannot write to <file>' and the file is
    still absent. *)
Theorem createDB_never_overwrites (w : World) (r : outcome bool) (w' : World) :
  DB.createDB w = (r, w') ->
  (file w <> None -> r = Return false /\ w' = after_calls [existsSync_call] w) /\
  (r = Return true -> file w = None /\ file w' = Some "[]" /\ stores w' []) /\
  (file w = None -> writable w = false ->
   r = Throw (Error ("Cannot write to " +:+ filename)) /\ file w' = None).
Proof.
  destruct w as [[raw|] wr cs]; run_js.
  - intros [= <- <-]. split; [done|]. split; [done|]. by intros [=].
  - destruct wr; intros [= <- <-]; simpl.
    + split; [done|]. split; [|done]. intros _. split; [done|]. split; [done|].
      by apply stores_empty_literal.
    + split; [done|]. split; [done|]. done.
Qed.

(** X7.  [resetDB] on a disk that accepts the write leaves the empty
    collection whatever the file held before, absent and malformed files
    included, and [getAllTasks] then returns the empty array; when the disk
    refuses the write it throws 'Cannot write to <file>' and the file is as
    it was. *)
Theorem resetDB_empties (w : World) :
  (writable w = true ->
   DB.resetDB w = (Return true, after_write "[]" w) /\
   stores (after_write "[]" w) [] /\
   DB.getAllTasks (after_write "[]" w) =
     (Return [],
      after_calls [existsSync_call; readFileSync_call] (after_write "[]" w))) /\
  (writable w = false ->
   DB.resetDB w =
     (Throw (Error ("Cannot write to " +:+ filename)),
      after_calls [writeFileSync_call "[]"] w)).
Proof.
  split; intros Hw; destruct w as [f wr cs]; simpl in Hw; subst wr.
  - assert (Hst : stores (after_write "[]" (mkWorld f true cs)) [])
      by by apply stores_empty_literal.
    split; [|split; [done|]].
    + unfold DB.resetDB. run_js. reflexivity.
    + by apply getAllTasks_loaded.
  - unfold DB.resetDB. run_js. reflexivity.
Qed.

(** X8.  [saveTask] on an absent file, with arguments that pass the checks
    and a disk that accepts writes: with id 0 it creates the file and stores
    the task alone, under the id 1; with an id above 0 it throws
    'Task not found' after having created the file, which is left holding
    the empty collection. *)
Theorem saveTask_on_absent_file (w : World) (title : string) (completed : bool) :
  file w = None ->
  writable w = true ->
  valid_title title ->
  let first := [DB.new_task 1 title completed] in
  DB.saveTask (Int 0) title completed w =
    (Return (Int 1), after_create_and_write (JSON_stringify first 2) w) /\
  stores (after_create_and_write (JSON_stringify first 2) w) first /\
  (forall z,
     0 < z ->
     exists w',
       DB.saveTask (Int z) title completed w = (Throw (Error "Task not found"), w') /\
       stores w' [] /\
       calls w' =
         (calls w ++ [existsSync_call; existsSync_call; writeFileSync_call "[]"])%list).
Proof.
  intros Hfile Hw Hlen first. destruct w as [f wr cs]. simpl in Hfile, Hw. subst f wr.
  split; [|split].
  - destruct (saveTask_guards_pass 0 title ltac:(lia) Hlen) as [Hid Htitle].
    unfold DB.saveTask. rewrite Hid, Htitle. run_js.
    unfold after_create_and_write. simpl. by rewrite <- !app_assoc.
  - by eapply stores_written.
  - intros z Hz.
    destruct (saveTask_guards_pass z title ltac:(lia) Hlen) as [Hid Htitle].
    unfold DB.saveTask. rewrite Hid, Htitle. run_js.
    rewrite bool_decide_eq_false_2 by (intros [= ->]; lia).
    eexists. split; [reflexivity|]. simpl. split.
    + by apply stores_empty_literal.
    + by rewrite <- !app_assoc.
Qed.



End FreshAndFailing.

Section Composition.
Context `{R : Runtime} {L : RuntimeLaws R}.

Lemma filter_none_match (k : Z) (l : list TaskType.t) :
  (forall t, t ∈ l -> TaskType.id t <> k) ->
  filter (fun task => Int (TaskType.id task) <> Int k) l = l.
Proof.
  induction l as [|t l IH]; intros Hl; [done|].
  rewrite filter_cons_True.
  - f_equal. apply IH. intros u Hu. apply Hl. by right.
  - intros [= Heq]. by apply (Hl t); [left|].
Qed.

Lemma elem_of_filter_id (k : Z) (data : list TaskType.t) (t : TaskType.t) :
  t ∈ filter (fun task => Int (TaskType.id task) <> Int k) data <->
  t ∈ data /\ TaskType.id t <> k.
Proof.
  rewrite list_elem_of_filter. split; intros [H1 H2]; split; try done.
  - intros Heq. apply H1. by rewrite Heq.
  - intros [= Heq]. by apply H2.
Qed.

(** X10.  [deleteTaskByID] with an integer id above 0 that some stored task
    has, on a disk that accepts the write, returns true after one read and
    one write.  The store then holds the former tasks without every task of
    that id (all of them, should several share it), the others in their
    former order, and is shorter than before. *)
Theorem deleteTaskByID_removes (w : World) (data : list TaskType.t)
    (id : id_arg) (k : Z) :
  stores w data ->
  file w <> Some EmptyString ->
  writable w = true ->
  to_number id = Int k -> 0 < k ->
  (exists t, t ∈ data /\ TaskType.id t = k) ->
  let kept := filter (fun task => Int (TaskType.id task) <> Int k) data in
  let text := JSON_stringify kept 4 in
  let w' := mkWorld (Some text) true
              (calls w ++ [readFileSync_call; writeFileSync_call text]) in
  DB.deleteTaskByID id w = (Return true, w') /\
  stores w' kept /\
  (forall t, t ∈ kept <-> t ∈ data /\ TaskType.id t <> k) /\
  kept `sublist_of` data /\
  (length kept < length data)%nat.
Proof.
  intros (raw & Hfile & Hparse) Hnonempty Hw Hid Hk (t & Ht & Htk) kept text w'.
  assert (Hne : raw <> EmptyString) by (intros ->; by apply Hnonempty).
  assert (Hlt : (length kept < length data)%nat).
  { apply (length_filter_lt _ data t Ht). rewrite Htk. tauto. }
  split; [|split; [|split; [|split]]].
  - rewrite (deleteTaskByID_loaded w raw data id k Hfile) by
      (try done; by rewrite bool_decide_eq_false_2).
    cbv zeta. fold kept. rewrite bool_decide_eq_false_2 by lia.
    destruct w as [f wr cs]. simpl in Hw. subst wr.
    run_js. subst w' text. simpl. by rewrite <- app_assoc.
  - by eapply stores_written.
  - intros u. apply elem_of_filter_id.
  - apply sublist_filter.
  - exact Hlt.
Qed.

(** X11.  After [deleteTaskByID] has returned true for an id, the id is gone:
    [getTaskByID] with it returns null and a second [deleteTaskByID] returns
    false without writing. *)
Theorem deleteTaskByID_then_gone (w w' : World) (data : list TaskType.t)
    (id : id_arg) :
  stores w data ->
  file w <> Some EmptyString ->
  DB.deleteTaskByID id w = (Return true, w') ->
  DB.getTaskByID id w' =
    (Return None, after_calls [existsSync_call; readFileSync_call] w') /\
  DB.deleteTaskByID id w' = (Return false, after_calls [readFileSync_call] w').
Proof.
  intros Hst Hnonempty Hrun.
  destruct (negb (Number.isInteger (to_number id)) || Number.le0 (to_number id))
    eqn:Hguard.
  { by rewrite deleteTaskByID_rejects in Hrun. }
  apply deleteTaskByID_id_guard in Hguard as (k & Hid & Hk).
  pose proof Hst as (raw & Hfile & Hparse).
  assert (Hne : raw <> EmptyString) by (intros ->; by apply Hnonempty).
  rewrite (deleteTaskByID_loaded w raw data id k Hfile) in Hrun by
    (try done; by rewrite bool_decide_eq_false_2).
  cbv zeta in Hrun. case_bool_decide; [done|].
  revert Hrun. run_js. destruct (writable w); [|done]. intros [= <-].
  set (kept := filter (fun task => Int (TaskType.id task) <> Int k) data).
  set (w' := {| file := Some (JSON_stringify kept 4); writable := true;
                calls := (calls w ++ [readFileSync_call]) ++
                         [writeFileSync_call (JSON_stringify kept 4)] |}).
  assert (Hst' : stores w' kept) by by eapply stores_written.
  assert (Hgone : forall t, t ∈ kept -> TaskType.id t <> k).
  { intros t Ht. by apply elem_of_filter_id in Ht as [_ ?]. }
  split.
  - rewrite (getTaskByID_loaded w' kept id Hst'). rewrite Hid.
    assert (list_find (fun t => Int (TaskType.id t) = Int k) kept = None) as ->;
      [|done].
    apply list_find_None, Forall_forall. intros t Ht [= Heq]. by apply (Hgone t).
  - destruct (decide (JSON_stringify kept 4 = EmptyString)) as [Hempty|Hfull].
    + rewrite (deleteTaskByID_loaded w' _ [] id k eq_refl); [done| |done..].
      by rewrite bool_decide_eq_true_2.
    + rewrite (deleteTaskByID_loaded w' _ kept id k eq_refl); [| |done..].
      * cbv zeta. rewrite (filter_none_match k kept Hgone).
        by rewrite bool_decide_eq_true_2.
      * rewrite bool_decide_eq_false_2 by done. apply parse_stringify.
Qed.

(** X12.  After [saveTask] with id 0 has stored a task in a store whose last
    id is a safe integer, the id returned is the last id plus one,
    [getTaskByTitle] with the title returns the new task; [getTaskByID] with
    the id that was returned does so too when no task stored before had that
    id, and returns the earlier task of that id otherwise. *)
Theorem saveTask_then_lookup (w w' : World) (data : list TaskType.t)
    (title : string) (completed : bool) (r : number) :
  stores w data ->
  last_id_safe data ->
  DB.saveTask (Int 0) title completed w = (Return r, w') ->
  let saved := DB.new_task (last_id_plus_one data) title completed in
  r = Int (last_id_plus_one data) /\
  DB.getTaskByTitle title w' =
    (Return (Some saved), after_calls [existsSync_call; readFileSync_call] w') /\
  ((forall t, t ∈ data -> TaskType.id t <> last_id_plus_one data) ->
   DB.getTaskByID (IdNumber r) w' =
     (Return (Some saved), after_calls [existsSync_call; readFileSync_call] w')) /\
  (forall t, t ∈ data -> TaskType.id t = last_id_plus_one data ->
   exists earlier,
     earlier ∈ data /\
     DB.getTaskByID (IdNumber r) w' =
       (Return (Some earlier),
        after_calls [existsSync_call; readFileSync_call] w')).
Proof.
  intros Hst _ Hrun saved.
  pose proof (saveTask_new_returns w w' data title completed r Hst Hrun) as Hst'.
  fold saved in Hst'.
  destruct (Nat.lt_ge_cases (String.length title) 3) as [Hshort|Hlen].
  { by rewrite saveTask_rejects_title in Hrun. }
  rewrite (saveTask_loaded w data 0 title completed Hst) in Hrun by done.
  cbv zeta in Hrun. rewrite bool_decide_eq_true_2 in Hrun by done.
  destruct (list_find (fun t => TaskType.title t = title) data) eqn:Hfresh; [done|].
  assert (Hr : r = Int (last_id_plus_one data)).
  { revert Hrun. run_js. destruct (writable w); [|done]. by intros [= <- _]. }
  split; [exact Hr|]. split; [|split].
  - rewrite (getTaskByTitle_loaded w' _ title Hst').
    rewrite list_find_app_r by done. simpl.
    by rewrite decide_True.
  - intros Hnew. rewrite (getTaskByID_loaded w' _ _ Hst'). rewrite Hr. simpl.
    rewrite list_find_app_r.
    + simpl. by rewrite decide_True.
    + apply list_find_None, Forall_forall. intros t Ht [= Heq]. by apply (Hnew t).
  - intros t Ht Heq. rewrite (getTaskByID_loaded w' _ _ Hst'). rewrite Hr. simpl.
    destruct (list_find_elem_of
                (fun u => Int (TaskType.id u) = Int (last_id_plus_one data)) data t Ht)
      as [[i earlier] Hfind]; [by rewrite Heq|].
    exists earlier. split.
    + apply list_find_Some in Hfind as (Hi & _ & _).
      by eapply list_elem_of_lookup_2.
    + by rewrite (list_find_app_l _ _ _ _ _ Hfind).
Qed.

(** X13.  [insertBulkData] with a string refuses it before any file call when
    the string is not JSON ('Invalid data: Could not parse JSON string.') and
    when it is JSON but no array ('Invalid data: Must be an array of Task
    objects.').  With a string that is the JSON of an array it does what it
    does with the array: the file is overwritten with the array laid out
    anew, whatever the file held and whether or not it existed, and the store
    then holds that array. *)
Theorem insertBulkData_text (w : World) (text : string) :
  (JSON_parse text = None ->
   DB.insertBulkData (DB.BulkText text) w =
     (Throw (Error "Invalid data: Could not parse JSON string."), w)) /\
  (JSON_parse text = Some JOther ->
   DB.insertBulkData (DB.BulkText text) w =
     (Throw (Error "Invalid data: Must be an array of Task objects."), w)) /\
  (forall tasks,
     JSON_parse text = Some (JArray tasks) ->
     DB.insertBulkData (DB.BulkText text) w =
       DB.insertBulkData (DB.BulkArray tasks) w /\
     (writable w = true ->
      DB.insertBulkData (DB.BulkText text) w =
        (Return tt, after_write (JSON_stringify tasks 2) w) /\
      stores (after_write (JSON_stringify tasks 2) w) tasks)).
Proof.
  split; [|split].
  - intros Hparse. unfold DB.insertBulkData. run_js. by rewrite Hparse.
  - intros Hparse. unfold DB.insertBulkData. run_js. by rewrite Hparse.
  - intros tasks Hparse. split.
    + unfold DB.insertBulkData. run_js. by rewrite Hparse.
    + intros Hw. split; [|by eapply stores_written].
      destruct w as [f wr cs]. simpl in Hw. subst wr.
      unfold DB.insertBulkData. run_js. by rewrite Hparse.
Qed.

End Composition.

Section Soundness.
Context `{R : Runtime} {L : RuntimeLaws R}.

(** [saveTask] on an absent file leaves it absent, or holding the empty
    collection, or holding the new task alone. *)
Lemma saveTask_from_absent (w w' : World) (id : number) (title : string)
    (completed : bool) (r : outcome number) :
  file w = None ->
  DB.saveTask id title completed w = (r, w') ->
  file w' = None \/ stores w' [] \/
  (valid_title title /\ stores w' [DB.new_task 1 title completed]).
Proof.
  intros Hfile Hrun.
  destruct (Number.lt0 id || negb (Number.isInteger id)) eqn:Hguard.
  { rewrite saveTask_rejects_id in Hrun by done. left. by injection Hrun as _ <-. }
  destruct (Nat.lt_ge_cases (String.length title) 3) as [Hshort|Hlen].
  { rewrite saveTask_rejects_title in Hrun by done. left. by injection Hrun as _ <-. }
  destruct w as [f wr cs]. simpl in Hfile. subst f.
  revert Hrun. unfold DB.saveTask. rewrite Hguard, (ltb_length_valid _ Hlen).
  run_js. destruct wr; simpl.
  - case_bool_decide; simpl.
    + intros [= _ <-]. right; right. split; [done|]. by eapply stores_written.
    + intros [= _ <-]. right; left. by apply stores_empty_literal.
  - intros [= _ <-]. by left.
Qed.

Lemma deleteTaskByID_from_absent (w w' : World) (id : id_arg) (r : outcome bool) :
  file w = None ->
  DB.deleteTaskByID id w = (r, w') ->
  file w' = None.
Proof.
  intros Hfile. destruct w as [f wr cs]. simpl in Hfile. subst f.
  unfold DB.deleteTaskByID.
  destruct (negb (Number.isInteger (to_number id)) || Number.le0 (to_number id)).
  - by intros [= _ <-].
  - run_js. by intros [= _ <-].
Qed.

Lemma well_formed_nil : well_formed [].
Proof. repeat split; constructor. Qed.

Lemma well_formed_first (title : string) (completed : bool) :
  valid_title title -> well_formed [DB.new_task 1 title completed].
Proof.
  intros Hlen. unfold well_formed, ids, titles. simpl.
  split; [by repeat constructor|]. split; [by repeat constructor|].
  split; [apply NoDup_singleton | by repeat constructor].
Qed.

Lemma well_formed_append (data : list TaskType.t) (title : string)
    (completed : bool) :
  well_formed data ->
  valid_title title ->
  (forall t, t ∈ data -> TaskType.title t <> title) ->
  well_formed (data ++ [DB.new_task (last_id_plus_one data) title completed]).
Proof.
  intros (Hasc & Hpos & Hnd & Hvalid) Hlen Hfresh.
  split; [by apply ascending_after_append|]. unfold ids, titles in *.
  rewrite !fmap_snoc. simpl. split; [|split].
  - apply Forall_app. split; [done|]. constructor; [|done].
    unfold last_id_plus_one. destruct (last data) as [t|] eqn:Hlast; [|lia].
    apply last_Some_elem_of in Hlast. rewrite Forall_forall in Hpos.
    specialize (Hpos _ (list_elem_of_fmap_2 TaskType.id _ _ Hlast)). lia.
  - apply NoDup_app. split; [done|]. split; [|apply NoDup_singleton].
    intros x (t & -> & Ht)%list_elem_of_fmap Hx.
    apply list_elem_of_singleton in Hx. by apply (Hfresh t).
  - apply Forall_app. split; [done | by repeat constructor].
Qed.

Lemma well_formed_overwrite (data : list TaskType.t) (i : nat)
    (existing : TaskType.t) (title : string) (completed : bool) :
  well_formed data ->
  valid_title title ->
  data !! i = Some existing ->
  (forall u, u ∈ data -> TaskType.title u = title ->
             TaskType.id u = TaskType.id existing) ->
  well_formed (<[i := DB.overwrite title completed existing]> data).
Proof.
  intros (Hasc & Hpos & Hnd & Hvalid) Hlen Hi Honly.
  unfold well_formed. rewrite (ids_overwrite data i existing title completed Hi).
  split; [done|]. split; [done|]. split.
  - apply titles_distinct_after_overwrite; try done. by apply ascending_NoDup.
  - unfold titles in *. rewrite list_fmap_insert. simpl. by apply Forall_insert.
Qed.

Lemma well_formed_filter (P : TaskType.t -> Prop) `{!forall t, Decision (P t)}
    (data : list TaskType.t) :
  well_formed data -> well_formed (filter P data).
Proof.
  intros (Hasc & Hpos & Hnd & Hvalid).
  assert (Hids : ids (filter P data) `sublist_of` ids data)
    by apply ids_filter_sublist.
  assert (Htitles : titles (filter P data) `sublist_of` titles data).
  { unfold titles. apply fmap_sublist, sublist_filter. }
  split; [by eapply ascending_sublist|]. split; [|split].
  - rewrite Forall_forall in Hpos |- *. intros z Hz. apply Hpos.
    by eapply elem_of_sublist.
  - by eapply sublist_NoDup.
  - rewrite Forall_forall in Hvalid |- *. intros z Hz. apply Hvalid.
    by eapply elem_of_sublist.
Qed.

Lemma sound_perform (q : request) (w : World) : sound w -> sound (perform q w).
Proof.
  intros [Hnone|(data & Hst & Hwf)]; destruct q as [id title completed|id];
    unfold perform.
  - destruct (DB.saveTask id title completed w) as [r w'] eqn:Hrun. simpl.
    destruct (saveTask_from_absent w w' id title completed r Hnone Hrun)
      as [?|[?|[? ?]]].
    + by left.
    + right. exists []. split; [done | apply well_formed_nil].
    + right. eexists. split; [done | by apply well_formed_first].
  - destruct (DB.deleteTaskByID id w) as [r w'] eqn:Hrun. simpl.
    left. by eapply deleteTaskByID_from_absent.
  - destruct (DB.saveTask id title completed w) as [r w'] eqn:Hrun. simpl.
    right.
    destruct (saveTask_effect w w' data id title completed r Hst Hrun)
      as [Hf|[(_ & Hlen & Hfresh & Hf)|
              (z & i & existing & _ & _ & Hlen & Hi & Hid & Honly & Hf)]].
    + exists data. split; [by eapply stores_same_file | done].
    + eexists. split; [by eapply stores_written | by apply well_formed_append].
    + eexists. split; [by eapply stores_written|].
      apply well_formed_overwrite; try done. by rewrite Hid.
  - destruct (DB.deleteTaskByID id w) as [r w'] eqn:Hrun. simpl.
    right.
    destruct (deleteTaskByID_file w w' data id r Hst Hrun) as [Hf|[k Hf]].
    + exists data. split; [by eapply stores_same_file | done].
    + eexists. split; [by eapply stores_written | by apply well_formed_filter].
Qed.

(** X14.  Whatever series of [saveTask] and [deleteTaskByID] calls is made,
    with whatever arguments and whether the calls return or throw, a file
    that was absent at the start is absent at the end or holds a collection
    whose ids ascend from 1 or above, and are therefore pairwise distinct,
    and whose titles have at least 3 characters and are pairwise distinct. *)
Theorem calls_keep_store_sound (qs : list request) (w : World) :
  file w = None ->
  file (perform_all qs w) = None \/
  exists data,
    stores (perform_all qs w) data /\
    well_formed data /\
    NoDup (ids data) /\
    (forall t, t ∈ data -> TaskType.id t < last_id_plus_one data) /\
    last_id_plus_one data = max_id_plus_one data.
Proof.
  intros Hnone.
  assert (Hsound : sound (perform_all qs w)).
  { assert (Hw : sound w) by by left. clear Hnone. revert w Hw.
    induction qs as [|q qs IH]; intros w Hw; [done|].
    apply (IH (perform q w)). by apply sound_perform. }
  destruct Hsound as [?|(data & Hst & Hwf)]; [by left|]. right.
  exists data. split; [done|]. split; [done|].
  destruct Hwf as (Hasc & _). split; [by apply ascending_NoDup|].
  split; [by apply ascending_below_next|].
  apply last_id_is_max. by apply ascending_below_next.
Qed.

End Soundness.

Section TaskClass.
Context `{R : Runtime} {L : RuntimeLaws R}.

Lemma revive_valid (n : number) (task : TaskType.t) (w : World) :
  valid_title (TaskType.title task) ->
  Task.revive n task w =
    (Return (Task.mk n (TaskType.title task) (TaskType.completed task)), w).
Proof.
  intros Hlen. unfold Task.revive, Task.new, Task.set_title, Task.set_completed,
    Task.setId, bind, ret.
  by rewrite (ltb_length_valid _ Hlen).
Qed.

Lemma revive_short (n : number) (task : TaskType.t) (w : World) :
  ~ valid_title (TaskType.title task) ->
  Task.revive n task w = (Throw title_error, w).
Proof.
  intros Hlen. unfold Task.revive, Task.new, Task.set_title, bind, throw.
  rewrite ltb_length_short; [done|]. unfold valid_title in Hlen. lia.
Qed.

Lemma revive_all_valid (tasks : list TaskType.t) :
  forall (items : list Task.t) (w : World),
    Forall valid_title (titles tasks) ->
    Task.revive_all tasks items w =
      (Return (items ++ (instance_of <$> tasks))%list, w).
Proof.
  induction tasks as [|task tasks IH]; intros items w Hvalid; simpl.
  - unfold ret. by rewrite app_nil_r.
  - unfold titles in Hvalid. rewrite fmap_cons in Hvalid.
    inversion Hvalid as [|? ? Htask Hrest]; subst.
    unfold bind. rewrite revive_valid by done.
    rewrite IH by done. by rewrite <- app_assoc.
Qed.

Lemma revive_all_short (tasks : list TaskType.t) :
  forall (items : list Task.t) (w : World),
    ~ Forall valid_title (titles tasks) ->
    Task.revive_all tasks items w = (Throw title_error, w).
Proof.
  induction tasks as [|task tasks IH]; intros items w Hbad; simpl.
  - destruct Hbad. constructor.
  - unfold bind.
    destruct (decide (valid_title (TaskType.title task))) as [Hok|Hshort].
    + rewrite revive_valid by done. apply IH. intros Hrest. apply Hbad.
      unfold titles. rewrite fmap_cons. by constructor.
    + by rewrite revive_short.
Qed.

Lemma getTaskById_loaded (w : World) (data : list TaskType.t) (k : Z) :
  stores w data ->
  Task.getTaskById (Int k) w =
    match snd <$> list_find (fun t => Int (TaskType.id t) = Int k) data with
    | None => (Return None, after_calls [existsSync_call; readFileSync_call] w)
    | Some t =>
        if decide (valid_title (TaskType.title t))
        then (Return (Some (instance_of t)),
              after_calls [existsSync_call; readFileSync_call] w)
        else (Throw title_error,
              after_calls [existsSync_call; readFileSync_call] w)
    end.
Proof.
  intros Hst. unfold Task.getTaskById, bind at 1.
  rewrite (getTaskByID_loaded w data (IdNumber (Int k)) Hst). simpl to_number.
  destruct (list_find _ data) as [[i t]|] eqn:Hfind; simpl; [|done].
  apply list_find_Some in Hfind as (_ & [= Hid] & _).
  unfold bind. case_decide.
  - rewrite revive_valid by done. unfold ret, instance_of. by rewrite Hid.
  - by rewrite revive_short.
Qed.

(** X15.  The static getters of the Task class on a store.  [getTaskById]
    and [getTaskByTitle] return null when the lookup finds nothing, and an
    instance with the id, title and completed flag of the stored task it
    finds when that title has at least 3 characters.  A stored title shorter
    than that (one an import put there) makes the constructor throw its title
    error out of the getter.  Neither writes. *)
Theorem Task_getters (w : World) (data : list TaskType.t) :
  stores w data ->
  let w' := after_calls [existsSync_call; readFileSync_call] w in
  (forall k : Z,
     Task.getTaskById (Int k) w =
       match snd <$> list_find (fun t => Int (TaskType.id t) = Int k) data with
       | None => (Return None, w')
       | Some t =>
           if decide (valid_title (TaskType.title t))
           then (Return (Some (instance_of t)), w')
           else (Throw title_error, w')
       end) /\
  (forall title : string,
     Task.getTaskByTitle title w =
       match snd <$> list_find (fun t => TaskType.title t = title) data with
       | None => (Return None, w')
       | Some t =>
           if decide (valid_title title)
           then (Return (Some (instance_of t)), w')
           else (Throw title_error, w')
       end).
Proof.
  intros Hst w'. split.
  - intros k. by apply getTaskById_loaded.
  - intros title. unfold Task.getTaskByTitle, bind at 1.
    rewrite (getTaskByTitle_loaded w data title Hst).
    destruct (list_find _ data) as [[i t]|] eqn:Hfind; simpl; [|done].
    apply list_find_Some in Hfind as (_ & Htitle & _).
    unfold bind. rewrite <- Htitle. case_decide.
    + by rewrite revive_valid.
    + by rewrite revive_short.
Qed.

(** X16.  [Task.getAllTasks] on a store: with [rawObject] it returns the
    stored records as they are; without it, an instance for every stored
    task, in the stored order and with the stored id, title and completed
    flag, when every stored title has at least 3 characters, and it throws
    the constructor's title error when some stored title is shorter.  It
    never writes. *)
Theorem Task_getAllTasks (w : World) (data : list TaskType.t) :
  stores w data ->
  let w' := after_calls [existsSync_call; readFileSync_call] w in
  Task.getAllTasks true w = (Return (Task.Raw data), w') /\
  (Forall valid_title (titles data) ->
   Task.getAllTasks false w =
     (Return (Task.Instances (instance_of <$> data)), w')) /\
  (~ Forall valid_title (titles data) ->
   Task.getAllTasks false w = (Throw title_error, w')).
Proof.
  intros Hst w'. unfold Task.getAllTasks, bind.
  rewrite (getAllTasks_loaded w data Hst). split; [done|]. split.
  - intros Hvalid. by rewrite revive_all_valid.
  - intros Hbad. by rewrite revive_all_short.
Qed.

(** X17.  Saving through the Task class, on a store of the kind the
    operations build, whose last id is a safe integer, and a disk that
    accepts writes.  An instance made by the constructor holds the id 0;
    [save] stores it under the id of the last task plus one and returns the
    instance with that id and the same title and flag.  Saving the returned
    instance again is an update under its own id: nothing is appended and
    the stored collection is the same.  [Task.getTaskById] with the new id
    then returns an equal instance. *)
Theorem Task_save_then_again (w : World) (data : list TaskType.t)
    (title : string) (completed : bool) :
  stores w data ->
  well_formed data ->
  last_id_safe data ->
  writable w = true ->
  valid_title title ->
  (forall t, t ∈ data -> TaskType.title t <> title) ->
  let finalId := last_id_plus_one data in
  let data' := (data ++ [DB.new_task finalId title completed])%list in
  let text := JSON_stringify data' 2 in
  let fresh := Task.mk (Int 0) title completed in
  let saved := Task.mk (Int finalId) title completed in
  Task.new title completed w = (Return fresh, w) /\
  Task.save fresh w = (Return saved, after_rewrite text w) /\
  Task.save saved (after_rewrite text w) =
    (Return saved, after_rewrite text (after_rewrite text w)) /\
  stores (after_rewrite text (after_rewrite text w)) data' /\
  Task.getTaskById (Int finalId) (after_rewrite text w) =
    (Return (Some saved),
     after_calls [existsSync_call; readFileSync_call] (after_rewrite text w)).
Proof.
  intros Hst Hwf _ Hw Hlen Hfresh finalId data' text fresh saved.
  assert (Hst' : stores (after_rewrite text w) data') by apply stores_after_rewrite.
  destruct Hwf as (Hasc & Hpos & _ & _).
  assert (Hbelow : forall t, t ∈ data -> TaskType.id t < finalId)
    by by apply ascending_below_next.
  assert (Hfinal : 0 < finalId).
  { unfold finalId, last_id_plus_one.
    destruct (last data) as [t|] eqn:Hlast; [|lia].
    apply last_Some_elem_of in Hlast. rewrite Forall_forall in Hpos.
    specialize (Hpos _ (list_elem_of_fmap_2 TaskType.id _ _ Hlast)). lia. }
  assert (Hfind : list_find (fun t => Int (TaskType.id t) = Int finalId) data'
                  = Some (length data, DB.new_task finalId title completed)).
  { unfold data'. rewrite list_find_app_r.
    - simpl. by rewrite decide_True.
    - apply list_find_None, Forall_forall. intros t Ht [= Heq].
      specialize (Hbelow t Ht). lia. }
  split; [|split; [|split; [|split]]].
  - unfold Task.new, Task.set_title, Task.set_completed, bind, ret.
    by rewrite (ltb_length_valid _ Hlen).
  - unfold Task.save, try_catch, bind. simpl.
    rewrite (saveTask_loaded w data 0 title completed Hst) by done. cbv zeta.
    rewrite bool_decide_eq_true_2 by done.
    assert (list_find (fun t => TaskType.title t = title) data = None) as ->.
    { apply list_find_None, Forall_forall. intros t Ht. by apply Hfresh. }
    by rewrite write_after_load.
  - unfold Task.save, try_catch, bind. simpl.
    rewrite (saveTask_loaded _ data' finalId title completed Hst') by (done || lia).
    cbv zeta. rewrite bool_decide_eq_false_2 by (intros [= Heq]; lia).
    rewrite Hfind.
    assert (list_find
              (fun t => TaskType.title t = title /\
                        Int (TaskType.id t) <> Int finalId) data' = None) as ->.
    { apply list_find_None, Forall_forall. intros t Ht [Htitle Hid].
      apply elem_of_app in Ht as [Ht|Ht].
      - by apply (Hfresh t).
      - apply list_elem_of_singleton in Ht. subst t. by apply Hid. }
    rewrite list_insert_id.
    + by rewrite write_after_load.
    + unfold data'. by rewrite lookup_app_r, Nat.sub_diag by done.
  - apply stores_after_rewrite.
  - rewrite (getTaskById_loaded _ data' finalId Hst'), Hfind. simpl.
    by rewrite decide_True.
Qed.

End TaskClass.

Section MoreComposition.
Context `{R : Runtime} {L : RuntimeLaws R}.

(** X18.  The earlier [getAllTask] and today's [getAllTasks] return the same
    array on a store, after the same two calls.  They part on an absent file,
    which both create, where the earlier one returns null and today's the
    empty array, and on a file holding JSON that is no array, which the
    earlier one returns as it is and today's replaces by the empty array. *)
Theorem legacy_getAllTask (w : World) :
  let w2 := after_calls [existsSync_call; readFileSync_call] w in
  (forall data,
     stores w data ->
     Legacy.getAllTask w = (Return (Some (JArray data)), w2) /\
     DB.getAllTasks w = (Return data, w2)) /\
  (forall raw,
     file w = Some raw ->
     JSON_parse raw = Some JOther ->
     Legacy.getAllTask w = (Return (Some JOther), w2) /\
     DB.getAllTasks w = (Return [], w2)) /\
  (file w = None ->
   writable w = true ->
   exists w',
     Legacy.getAllTask w = (Return None, w') /\
     DB.getAllTasks w = (Return [], w') /\
     stores w' []).
Proof.
  intros w2. subst w2. split; [|split].
  - intros data Hst. split; [|by apply getAllTasks_loaded].
    destruct Hst as (raw & Hfile & Hparse).
    destruct w as [f wr cs]. simpl in Hfile. subst f.
    unfold Legacy.getAllTask. run_js. rewrite Hparse. simpl.
    by rewrite <- app_assoc.
  - intros raw Hfile Hparse. destruct w as [f wr cs]. simpl in Hfile. subst f.
    split.
    + unfold Legacy.getAllTask. run_js. rewrite Hparse. simpl.
      by rewrite <- app_assoc.
    + unfold DB.getAllTasks. run_js. rewrite Hparse. simpl.
      by rewrite <- app_assoc.
  - intros Hfile Hw. destruct w as [f wr cs]. simpl in Hfile, Hw. subst f wr.
    eexists. split; [|split].
    + unfold Legacy.getAllTask. run_js. reflexivity.
    + unfold DB.getAllTasks. run_js. reflexivity.
    + by apply stores_empty_literal.
Qed.

Lemma find_in_filter {A} (P Q : A -> Prop) `{!forall x, Decision (P x)}
    `{!forall x, Decision (Q x)} (l : list A) :
  (forall x, x ∈ l -> P x -> Q x) ->
  snd <$> list_find P (filter Q l) = snd <$> list_find P l.
Proof.
  induction l as [|x l IH]; intros HPQ; [done|].
  assert (Hl : snd <$> list_find P (filter Q l) = snd <$> list_find P l).
  { apply IH. intros y Hy. apply HPQ. by right. }
  destruct (decide (Q x)) as [HQ|HQ].
  - rewrite filter_cons_True by done. simpl.
    destruct (decide (P x)); [done|].
    destruct (list_find P (filter Q l)) as [[? ?]|],
             (list_find P l) as [[? ?]|]; simpl in *; congruence.
  - rewrite filter_cons_False by done. simpl.
    rewrite decide_False by (intros HP; apply HQ, HPQ; [by left | done]).
    destruct (list_find P (filter Q l)) as [[? ?]|],
             (list_find P l) as [[? ?]|]; simpl in *; congruence.
Qed.

Lemma find_in_app {A} (P : A -> Prop) `{!forall x, Decision (P x)}
    (l : list A) (y x : A) :
  snd <$> list_find P l = Some x ->
  snd <$> list_find P (l ++ [y]) = Some x.
Proof.
  destruct (list_find P l) as [[i z]|] eqn:Hfind; [|done].
  intros [= ->]. by rewrite (list_find_app_l _ _ _ _ _ Hfind).
Qed.

(** X19.  After [saveTask] has updated the task with id k, both lookups give
    the task as updated: [getTaskByID] with k and [getTaskByTitle] with the
    new title return the task with the id k, the new title and the new
    flag. *)
Theorem saveTask_update_then_lookup (w w' : World) (data : list TaskType.t)
    (k : Z) (title : string) (completed : bool) (r : number) :
  stores w data ->
  0 < k ->
  DB.saveTask (Int k) title completed w = (Return r, w') ->
  let updated := TaskType.mk k title completed in
  r = Int k /\
  DB.getTaskByID (IdNumber (Int k)) w' =
    (Return (Some updated), after_calls [existsSync_call; readFileSync_call] w') /\
  DB.getTaskByTitle title w' =
    (Return (Some updated), after_calls [existsSync_call; readFileSync_call] w').
Proof.
  intros Hst Hk Hrun updated.
  destruct (Nat.lt_ge_cases (String.length title) 3) as [Hshort|Hlen].
  { rewrite saveTask_rejects_title in Hrun; [done| |done].
    apply saveTask_id_guard. exists k. split; [done | lia]. }
  rewrite (saveTask_loaded w data k title completed Hst) in Hrun by (done || lia).
  cbv zeta in Hrun.
  rewrite bool_decide_eq_false_2 in Hrun by (intros [= ->]; lia).
  destruct (list_find (fun t => Int (TaskType.id t) = Int k) data)
    as [[i existing]|] eqn:Hfind; [|done].
  destruct (list_find
              (fun t => TaskType.title t = title /\ Int (TaskType.id t) <> Int k)
              data) eqn:Hdup; [done|].
  revert Hrun. run_js. destruct (writable w); [|done]. intros [= <- <-].
  apply list_find_Some in Hfind as (Hi & [= Hid] & Hfirst).
  apply list_find_None in Hdup. rewrite Forall_forall in Hdup.
  set (data' := <[i := DB.overwrite title completed existing]> data).
  set (w' := {| file := Some (JSON_stringify data' 2); writable := true;
                calls := _ |}).
  assert (Hst' : stores w' data') by by eapply stores_written.
  assert (Hup : DB.overwrite title completed existing = updated).
  { unfold DB.overwrite, updated. by rewrite Hid. }
  assert (Hi' : data' !! i = Some updated).
  { unfold data'. rewrite Hup. apply list_lookup_insert_eq. by eapply lookup_lt_Some. }
  split; [done|]. split.
  - rewrite (getTaskByID_loaded w' data' _ Hst'). simpl to_number.
    assert (list_find (fun t => Int (TaskType.id t) = Int k) data'
            = Some (i, updated)) as ->; [|done].
    apply list_find_Some. split; [done|]. split; [done|].
    intros j u Hj Hlt. unfold data' in Hj.
    rewrite list_lookup_insert_ne in Hj by lia. by eapply Hfirst.
  - rewrite (getTaskByTitle_loaded w' data' _ Hst').
    assert (list_find (fun t => TaskType.title t = title) data'
            = Some (i, updated)) as ->; [|done].
    apply list_find_Some. split; [done|]. split; [done|].
    intros j u Hj Hlt Htitle. unfold data' in Hj.
    rewrite list_lookup_insert_ne in Hj by lia.
    destruct (decide (Int (TaskType.id u) = Int k)) as [Heq|Hne].
    + by eapply Hfirst.
    + apply (Hdup u); [by eapply list_elem_of_lookup_2 | done].
Qed.

(** X20.  Deleting and creating leave the other lookups as they were.  After
    [deleteTaskByID] with the id k has changed the file, [getTaskByID] with
    another id and [getTaskByTitle] with the title of a task that remains
    return what they returned before; after [saveTask] with id 0 has stored a
    task, every lookup that found a task before finds the same task. *)
Theorem edits_keep_other_lookups (w : World) (data : list TaskType.t) :
  stores w data ->
  file w <> Some EmptyString ->
  (forall id k w',
     to_number id = Int k ->
     DB.deleteTaskByID id w = (Return true, w') ->
     (forall id',
        to_number id' <> Int k ->
        fst (DB.getTaskByID id' w') = fst (DB.getTaskByID id' w)) /\
     (forall title,
        (forall t, t ∈ data -> TaskType.title t = title -> TaskType.id t <> k) ->
        fst (DB.getTaskByTitle title w') = fst (DB.getTaskByTitle title w))) /\
  (forall title completed r w',
     DB.saveTask (Int 0) title completed w = (Return r, w') ->
     (forall id' t,
        fst (DB.getTaskByID id' w) = Return (Some t) ->
        fst (DB.getTaskByID id' w') = Return (Some t)) /\
     (forall title' t,
        fst (DB.getTaskByTitle title' w) = Return (Some t) ->
        fst (DB.getTaskByTitle title' w') = Return (Some t))).
Proof.
  intros Hst Hnonempty. split.
  - intros id k w' Hid Hrun.
    assert (Hk : 0 < k).
    { destruct (negb (Number.isInteger (to_number id)) || Number.le0 (to_number id))
        eqn:Hguard; [by rewrite deleteTaskByID_rejects in Hrun|].
      apply deleteTaskByID_id_guard in Hguard as (k' & Hid' & Hk').
      rewrite Hid in Hid'. by injection Hid' as ->. }
    pose proof Hst as (raw & Hfile & Hparse).
    assert (Hne : raw <> EmptyString) by (intros ->; by apply Hnonempty).
    rewrite (deleteTaskByID_loaded w raw data id k Hfile) in Hrun by
      (try done; by rewrite bool_decide_eq_false_2).
    cbv zeta in Hrun. case_bool_decide; [done|].
    revert Hrun. run_js. destruct (writable w); [|done]. intros [= <-].
    set (kept := filter (fun task => Int (TaskType.id task) <> Int k) data).
    set (w' := {| file := Some (JSON_stringify kept 4); writable := true;
                  calls := _ |}).
    assert (Hst' : stores w' kept) by by eapply stores_written.
    split.
    + intros id' Hother.
      rewrite (getTaskByID_loaded w' kept id' Hst'),
              (getTaskByID_loaded w data id' Hst). simpl. f_equal.
      apply find_in_filter. intros t _ Ht Heq. apply Hother. by rewrite <- Ht, Heq.
    + intros title Hremains.
      rewrite (getTaskByTitle_loaded w' kept title Hst'),
              (getTaskByTitle_loaded w data title Hst). simpl. f_equal.
      apply find_in_filter. intros t Ht Htitle [= Heq]. by apply (Hremains t).
  - intros title completed r w' Hrun.
    pose proof (saveTask_new_returns w w' data title completed r Hst Hrun) as Hst'.
    split.
    + intros id' t. rewrite (getTaskByID_loaded w' _ id' Hst'),
                            (getTaskByID_loaded w data id' Hst). simpl.
      intros [= Hfound]. f_equal. by apply find_in_app.
    + intros title' t. rewrite (getTaskByTitle_loaded w' _ title' Hst'),
                               (getTaskByTitle_loaded w data title' Hst). simpl.
      intros [= Hfound]. f_equal. by apply find_in_app.
Qed.

End MoreComposition.

(** ** The further properties at work on sample stores *)


Lemma well_formed_chores : well_formed Sample.chores.
Proof.
  split; [|split; [|split]].
  - simpl. repeat constructor; lia.
  - repeat constructor; lia.
  - apply (bool_decide_unpack _). by vm_compute.
  - repeat constructor; unfold valid_title; simpl; lia.
Qed.

Lemma getTaskByID_first_match_witness :
  let w := Sample.disk Sample.chores in
  stores w Sample.chores /\
  exists r,
    DB.getTaskByID (IdString "2") w =
      (Return r, after_calls [existsSync_call; readFileSync_call] w) /\
    (r = None <->
     forall t, t ∈ Sample.chores -> Int (TaskType.id t) <> to_number (IdString "2")).
Proof.
  intros w. assert (Hst : stores w Sample.chores) by apply stores_disk.
  split; [exact Hst|].
  destruct (getTaskByID_first_match w Sample.chores (IdString "2") Hst)
    as (r & Hrun & _ & Hnone & _).
  exists r. split; [exact Hrun | exact Hnone].
Defined.

Lemma getTaskByTitle_first_match_witness :
  let w := Sample.disk Sample.chores in
  stores w Sample.chores /\
  exists r,
    DB.getTaskByTitle "water the plants" w =
      (Return r, after_calls [existsSync_call; readFileSync_call] w) /\
    (r = None <->
     forall t, t ∈ Sample.chores -> TaskType.title t <> "water the plants").
Proof.
  intros w. assert (Hst : stores w Sample.chores) by apply stores_disk.
  split; [exact Hst|].
  destruct (getTaskByTitle_first_match w Sample.chores "water the plants" Hst)
    as (r & Hrun & _ & Hnone).
  exists r. split; [exact Hrun | exact Hnone].
Defined.

Lemma malformed_file_is_left_alone_witness :
  let w := Sample.holding "{oops" in
  JSON_parse "{oops" = None /\
  DB.getAllTasks w =
    (Throw (Error ("Syntax error in DB file. " +:+
                   native_message (SyntaxError "{oops"))),
     after_calls [existsSync_call; readFileSync_call] w) /\
  DB.saveTask (Int 0) "feed the cat" false w =
    (Throw (Native (SyntaxError "{oops")),
     after_calls [existsSync_call; readFileSync_call] w).
Proof.
  intros w.
  assert (Hparse : JSON_parse "{oops" = None) by reflexivity.
  destruct (malformed_file_is_left_alone w "{oops" eq_refl ltac:(discriminate) Hparse)
    as (Hall & _ & _ & Hsave & _).
  split; [exact Hparse|]. split; [exact Hall|].
  apply Hsave; [lia | unfold valid_title; simpl; lia].
Defined.

Lemma non_array_file_witness :
  let w := Sample.holding "null" in
  JSON_parse "null" = Some JOther /\
  DB.getAllTasks w =
    (Return [], after_calls [existsSync_call; readFileSync_call] w) /\
  DB.deleteTaskByID (IdString "1") w =
    (Throw (Error "Cannot read DB file: DB file is not in expected format"),
     after_calls [readFileSync_call] w).
Proof.
  intros w.
  assert (Hparse : JSON_parse "null" = Some JOther) by reflexivity.
  destruct (non_array_file w "null" eq_refl ltac:(discriminate) Hparse)
    as (Hall & _ & _ & _ & Hdel).
  split; [exact Hparse|]. split; [exact Hall|].
  apply (Hdel (IdString "1") 1); [reflexivity | lia].
Defined.

Lemma empty_file_witness :
  let w := Sample.holding EmptyString in
  JSON_parse EmptyString = None /\
  DB.deleteTaskByID (IdString "1") w =
    (Return false, after_calls [readFileSync_call] w) /\
  DB.saveTask (Int 0) "feed the cat" false w =
    (Throw (Native (SyntaxError EmptyString)),
     after_calls [existsSync_call; readFileSync_call] w).
Proof.
  intros w.
  assert (Hparse : JSON_parse EmptyString = None) by reflexivity.
  destruct (empty_file w eq_refl Hparse) as (Hdel & Hsave & _).
  split; [exact Hparse|]. split.
  - apply (Hdel (IdString "1") 1); [reflexivity | lia].
  - apply Hsave; [lia | unfold valid_title; simpl; lia].
Defined.

Lemma createDB_never_overwrites_witness :
  let w' := mkWorld (Some "[]") true [existsSync_call; writeFileSync_call "[]"] in
  DB.createDB Sample.blank = (Return true, w') /\
  file Sample.blank = None /\ file w' = Some "[]" /\ stores w' [].
Proof.
  intros w'.
  assert (Hrun : DB.createDB Sample.blank = (Return true, w')) by reflexivity.
  destruct (createDB_never_overwrites Sample.blank (Return true) w' Hrun)
    as (_ & Hcreated & _).
  split; [exact Hrun | exact (Hcreated eq_refl)].
Defined.

Lemma resetDB_empties_witness :
  let w := Sample.disk Sample.chores in
  DB.resetDB w = (Return true, after_write "[]" w) /\
  stores (after_write "[]" w) [] /\
  DB.getAllTasks (after_write "[]" w) =
    (Return [],
     after_calls [existsSync_call; readFileSync_call] (after_write "[]" w)).
Proof.
  intros w. destruct (resetDB_empties w) as [Hreset _]. exact (Hreset eq_refl).
Defined.

Lemma saveTask_on_absent_file_witness :
  let first := [DB.new_task 1 "feed the cat" false] in
  valid_title "feed the cat" /\
  DB.saveTask (Int 0) "feed the cat" false Sample.blank =
    (Return (Int 1),
     after_create_and_write (JSON_stringify first 2) Sample.blank) /\
  stores (after_create_and_write (JSON_stringify first 2) Sample.blank) first.
Proof.
  intros first.
  assert (Hlen : valid_title "feed the cat") by (unfold valid_title; simpl; lia).
  destruct (saveTask_on_absent_file Sample.blank "feed the cat" false
              eq_refl eq_refl Hlen) as (Hrun & Hst & _).
  split; [exact Hlen|]. split; [exact Hrun | exact Hst].
Defined.


Lemma deleteTaskByID_removes_witness :
  let w := Sample.disk Sample.chores in
  let kept := [TaskType.mk 1 "wash the dishes" false] in
  let text := JSON_stringify kept 4 in
  let w' := mkWorld (Some text) true [readFileSync_call; writeFileSync_call text] in
  stores w Sample.chores /\
  DB.deleteTaskByID (IdString "2") w = (Return true, w') /\
  stores w' kept.
Proof.
  intros w kept text w'.
  assert (Hst : stores w Sample.chores) by apply stores_disk.
  destruct (deleteTaskByID_removes w Sample.chores (IdString "2") 2 Hst)
    as (Hrun & Hst' & _); [by vm_compute | reflexivity | reflexivity | lia | |].
  - exists (TaskType.mk 2 "water the plants" true).
    split; [apply list_elem_of_In; simpl; auto | reflexivity].
  - split; [exact Hst|]. split; [exact Hrun | exact Hst'].
Defined.

Lemma deleteTaskByID_then_gone_witness :
  let w := Sample.disk Sample.chores in
  let w' := snd (DB.deleteTaskByID (IdString "2") w) in
  stores w Sample.chores /\
  DB.deleteTaskByID (IdString "2") w = (Return true, w') /\
  DB.getTaskByID (IdString "2") w' =
    (Return None, after_calls [existsSync_call; readFileSync_call] w') /\
  DB.deleteTaskByID (IdString "2") w' =
    (Return false, after_calls [readFileSync_call] w').
Proof.
  intros w w'.
  assert (Hst : stores w Sample.chores) by apply stores_disk.
  assert (Hrun : DB.deleteTaskByID (IdString "2") w = (Return true, w'))
    by (vm_compute; reflexivity).
  split; [exact Hst|]. split; [exact Hrun|].
  apply (deleteTaskByID_then_gone w w' Sample.chores (IdString "2") Hst);
    [by vm_compute | exact Hrun].
Defined.

Lemma saveTask_then_lookup_witness :
  (let w := Sample.disk Sample.chores in
   let w' := snd (DB.saveTask (Int 0) "feed the cat" false w) in
   let saved := TaskType.mk 3 "feed the cat" false in
   stores w Sample.chores /\
   last_id_safe Sample.chores /\
   DB.saveTask (Int 0) "feed the cat" false w = (Return (Int 3), w') /\
   DB.getTaskByTitle "feed the cat" w' =
     (Return (Some saved), after_calls [existsSync_call; readFileSync_call] w') /\
   DB.getTaskByID (IdNumber (Int 3)) w' =
     (Return (Some saved), after_calls [existsSync_call; readFileSync_call] w')) /\
  (let w := Sample.disk Sample.imported_low_last in
   let w' := snd (DB.saveTask (Int 0) "ccc" false w) in
   stores w Sample.imported_low_last /\
   last_id_safe Sample.imported_low_last /\
   DB.saveTask (Int 0) "ccc" false w = (Return (Int 3), w') /\
   exists earlier,
     earlier ∈ Sample.imported_low_last /\
     DB.getTaskByID (IdNumber (Int 3)) w' =
       (Return (Some earlier),
        after_calls [existsSync_call; readFileSync_call] w')).
Proof.
  split; intros w w'.
  - intros saved.
    assert (Hst : stores w Sample.chores) by apply stores_disk.
    assert (Hrun : DB.saveTask (Int 0) "feed the cat" false w = (Return (Int 3), w'))
      by (vm_compute; reflexivity).
    destruct (saveTask_then_lookup w w' Sample.chores "feed the cat" false (Int 3)
                Hst chores_last_id_safe Hrun) as (_ & Htitle & Hid & _).
    split; [exact Hst|]. split; [exact chores_last_id_safe|].
    split; [exact Hrun|]. split; [exact Htitle|].
    apply Hid. intros t Ht. member_cases Ht; by vm_compute.
  - assert (Hst : stores w Sample.imported_low_last) by apply stores_disk.
    assert (Hrun : DB.saveTask (Int 0) "ccc" false w = (Return (Int 3), w'))
      by (vm_compute; reflexivity).
    destruct (saveTask_then_lookup w w' Sample.imported_low_last "ccc" false (Int 3)
                Hst imported_low_last_id_safe Hrun) as (_ & _ & _ & Hearlier).
    split; [exact Hst|]. split; [exact imported_low_last_id_safe|].
    split; [exact Hrun|].
    apply (Hearlier (TaskType.mk 3 "aaa" false));
      [apply list_elem_of_In; simpl; auto | reflexivity].
Defined.

Lemma insertBulkData_text_witness :
  let text := JSON_stringify Sample.chores 0 in
  JSON_parse "{oops" = None /\
  DB.insertBulkData (DB.BulkText "{oops") Sample.blank =
    (Throw (Error "Invalid data: Could not parse JSON string."), Sample.blank) /\
  JSON_parse text = Some (JArray Sample.chores) /\
  DB.insertBulkData (DB.BulkText text) Sample.blank =
    (Return tt, after_write (JSON_stringify Sample.chores 2) Sample.blank) /\
  stores (after_write (JSON_stringify Sample.chores 2) Sample.blank) Sample.chores.
Proof.
  intros text.
  assert (Hbad : JSON_parse "{oops" = None) by reflexivity.
  assert (Hgood : JSON_parse text = Some (JArray Sample.chores))
    by apply parse_stringify_ref.
  destruct (insertBulkData_text Sample.blank "{oops") as (Hnone & _ & _).
  destruct (insertBulkData_text Sample.blank text) as (_ & _ & Harray).
  destruct (Harray Sample.chores Hgood) as (_ & Hwritten).
  destruct (Hwritten eq_refl) as (Hrun & Hst).
  split; [exact Hbad|]. split; [exact (Hnone Hbad)|]. split; [exact Hgood|].
  split; [exact Hrun | exact Hst].
Defined.

Lemma calls_keep_store_sound_witness :
  let qs :=
    [ Save (Int 0) "feed the cat" false;
      Save (Int 0) "ab" false;
      Save (Int 0) "walk the dog" true;
      Delete (IdString "1");
      Save (Int 2) "walk the cat" true ] in
  file Sample.blank = None /\
  (file (perform_all qs Sample.blank) = None \/
   exists data,
     stores (perform_all qs Sample.blank) data /\
     well_formed data /\
     NoDup (ids data) /\
     (forall t, t ∈ data -> TaskType.id t < last_id_plus_one data) /\
     last_id_plus_one data = max_id_plus_one data).
Proof.
  intros qs. split; [reflexivity|].
  exact (calls_keep_store_sound qs Sample.blank eq_refl).
Defined.

Lemma Task_getters_witness :
  let w := Sample.disk Sample.short_titled in
  let w' := after_calls [existsSync_call; readFileSync_call] w in
  stores w Sample.short_titled /\
  Task.getTaskById (Int 1) w =
    (Return (Some (Task.mk (Int 1) "wash the dishes" false)), w') /\
  Task.getTaskById (Int 2) w = (Throw title_error, w') /\
  Task.getTaskByTitle "ab" w = (Throw title_error, w').
Proof.
  intros w w'.
  assert (Hst : stores w Sample.short_titled) by apply stores_disk.
  destruct (Task_getters w Sample.short_titled Hst) as (Hid & Htitle).
  split; [exact Hst|]. split; [|split].
  - rewrite (Hid 1). reflexivity.
  - rewrite (Hid 2). reflexivity.
  - rewrite (Htitle "ab"). reflexivity.
Defined.

Lemma Task_getAllTasks_witness :
  let w := Sample.disk Sample.chores in
  let w' := after_calls [existsSync_call; readFileSync_call] w in
  stores w Sample.chores /\
  Forall valid_title (titles Sample.chores) /\
  Task.getAllTasks false w =
    (Return (Task.Instances
               [ Task.mk (Int 1) "wash the dishes" false;
                 Task.mk (Int 2) "water the plants" true ]), w').
Proof.
  intros w w'.
  assert (Hst : stores w Sample.chores) by apply stores_disk.
  assert (Hvalid : Forall valid_title (titles Sample.chores)).
  { repeat constructor; unfold valid_title; simpl; lia. }
  destruct (Task_getAllTasks w Sample.chores Hst) as (_ & Hall & _).
  split; [exact Hst|]. split; [exact Hvalid | exact (Hall Hvalid)].
Defined.

Lemma Task_save_then_again_witness :
  let w := Sample.disk Sample.chores in
  let data' := (Sample.chores ++ [TaskType.mk 3 "feed the cat" false])%list in
  let text := JSON_stringify data' 2 in
  let saved := Task.mk (Int 3) "feed the cat" false in
  stores w Sample.chores /\
  well_formed Sample.chores /\
  last_id_safe Sample.chores /\
  Task.save (Task.mk (Int 0) "feed the cat" false) w =
    (Return saved, after_rewrite text w) /\
  Task.save saved (after_rewrite text w) =
    (Return saved, after_rewrite text (after_rewrite text w)) /\
  stores (after_rewrite text (after_rewrite text w)) data'.
Proof.
  intros w data' text saved.
  assert (Hst : stores w Sample.chores) by apply stores_disk.
  destruct (Task_save_then_again w Sample.chores "feed the cat" false Hst
              well_formed_chores chores_last_id_safe eq_refl)
    as (_ & Hsave & Hagain & Hst' & _).
  - unfold valid_title. simpl. lia.
  - intros t Ht. member_cases Ht; discriminate.
  - split; [exact Hst|]. split; [exact well_formed_chores|].
    split; [exact chores_last_id_safe|].
    split; [exact Hsave|]. split; [exact Hagain | exact Hst'].
Defined.

Lemma legacy_getAllTask_witness :
  (let w := Sample.disk Sample.chores in
   stores w Sample.chores /\
   Legacy.getAllTask w =
     (Return (Some (JArray Sample.chores)),
      after_calls [existsSync_call; readFileSync_call] w)) /\
  (exists w',
     Legacy.getAllTask Sample.blank = (Return None, w') /\
     DB.getAllTasks Sample.blank = (Return [], w') /\
     stores w' []).
Proof.
  split.
  - intros w. assert (Hst : stores w Sample.chores) by apply stores_disk.
    destruct (legacy_getAllTask w) as (Hsame & _ & _).
    split; [exact Hst | exact (proj1 (Hsame Sample.chores Hst))].
  - destruct (legacy_getAllTask Sample.blank) as (_ & _ & Habsent).
    exact (Habsent eq_refl eq_refl).
Defined.

Lemma saveTask_update_then_lookup_witness :
  let w := Sample.disk Sample.chores in
  let w' := snd (DB.saveTask (Int 2) "water the cactus" false w) in
  let updated := TaskType.mk 2 "water the cactus" false in
  stores w Sample.chores /\
  DB.saveTask (Int 2) "water the cactus" false w = (Return (Int 2), w') /\
  DB.getTaskByID (IdNumber (Int 2)) w' =
    (Return (Some updated), after_calls [existsSync_call; readFileSync_call] w') /\
  DB.getTaskByTitle "water the cactus" w' =
    (Return (Some updated), after_calls [existsSync_call; readFileSync_call] w').
Proof.
  intros w w' updated.
  assert (Hst : stores w Sample.chores) by apply stores_disk.
  assert (Hrun : DB.saveTask (Int 2) "water the cactus" false w =
                 (Return (Int 2), w')) by (vm_compute; reflexivity).
  destruct (saveTask_update_then_lookup w w' Sample.chores 2 "water the cactus"
              false (Int 2) Hst ltac:(lia) Hrun) as (_ & Hid & Htitle).
  split; [exact Hst|]. split; [exact Hrun|]. split; [exact Hid | exact Htitle].
Defined.

Lemma edits_keep_other_lookups_witness :
  let w := Sample.disk Sample.chores in
  let w' := snd (DB.deleteTaskByID (IdString "2") w) in
  stores w Sample.chores /\
  DB.deleteTaskByID (IdString "2") w = (Return true, w') /\
  fst (DB.getTaskByID (IdString "1") w') = fst (DB.getTaskByID (IdString "1") w).
Proof.
  intros w w'.
  assert (Hst : stores w Sample.chores) by apply stores_disk.
  assert (Hrun : DB.deleteTaskByID (IdString "2") w = (Return true, w'))
    by (vm_compute; reflexivity).
  destruct (edits_keep_other_lookups w Sample.chores Hst ltac:(by vm_compute))
    as (Hdel & _).
  destruct (Hdel (IdString "2") 2 w' eq_refl Hrun) as (Hids & _).
  split; [exact Hst|]. split; [exact Hrun|].
  apply Hids. by vm_compute.
Defined.

(** ** The command line *)

Section CommandLine.
Context `{R : Runtime}.

(** X21.  [Action.list] shows the stored tasks as a table when there is at
    least one, and the line 'there is not any task' when the collection is
    empty, when the file holds JSON that is no array, and when the file was
    absent, which it then creates.  A file that is not JSON makes it throw
    'Syntax error in DB file. ...': nothing in [list] catches the error. *)
Theorem Action_list_shows (w : World) :
  let w2 := after_calls [existsSync_call; readFileSync_call] w in
  (forall data,
     stores w data ->
     Action.list w =
       (Return (match data with
                | [] => Action.Warning "there is not any task"
                | _ => Action.Table (Task.Raw data)
                end), w2)) /\
  (forall raw,
     file w = Some raw ->
     JSON_parse raw = Some JOther ->
     Action.list w = (Return (Action.Warning "there is not any task"), w2)) /\
  (forall raw,
     file w = Some raw ->
     JSON_parse raw = None ->
     Action.list w =
       (Throw (Error ("Syntax error in DB file. " +:+
                      native_message (SyntaxError raw))), w2)) /\
  (file w = None ->
   writable w = true ->
   exists w',
     Action.list w = (Return (Action.Warning "there is not any task"), w') /\
     file w' = Some "[]").
Proof.
  intros w2. subst w2. split; [|split; [|split]].
  - intros data Hst. unfold Action.list, Task.getAllTasks, bind.
    rewrite (getAllTasks_loaded w data Hst). by destruct data.
  - intros raw Hfile Hparse. destruct w as [f wr cs]. simpl in Hfile. subst f.
    unfold Action.list, Task.getAllTasks, DB.getAllTasks. run_js.
    rewrite Hparse. simpl. by rewrite <- app_assoc.
  - intros raw Hfile Hparse. destruct w as [f wr cs]. simpl in Hfile. subst f.
    unfold Action.list, Task.getAllTasks, DB.getAllTasks. run_js.
    rewrite Hparse. simpl. by rewrite <- app_assoc.
  - intros Hfile Hw. destruct w as [f wr cs]. simpl in Hfile, Hw. subst f wr.
    unfold Action.list, Task.getAllTasks, DB.getAllTasks. run_js.
    eexists. split; reflexivity.
Qed.

(** X22.  With DB_FILE set, the program acts on one command only.  Every
    argument other than 'list', the seven other commands it advertises
    included, makes it end without touching the file and without a message;
    'list' runs [Action.list]; no argument, or an empty one, brings the
    message that lists the commands. *)
Theorem Index_main_dispatch (w : World) :
  filename <> EmptyString ->
  (forall c, c ∈ Index.commands -> c <> "list" ->
             Index.main (Some c) w = (Return Index.Nothing, w)) /\
  (forall c, c <> EmptyString -> c <> "list" ->
             Index.main (Some c) w = (Return Index.Nothing, w)) /\
  Index.main (Some "list") w = (s <- Action.list ; ret (Index.Listed s)) w /\
  Index.main None w =
    (Return (Index.Usage "you must enter a command" "available command are:"
               Index.commands), w) /\
  Index.main (Some EmptyString) w = Index.main None w.
Proof.
  intros Hset.
  assert (Hother : forall c, c <> EmptyString -> c <> "list" ->
                     Index.main (Some c) w = (Return Index.Nothing, w)).
  { intros c Hc Hlist. unfold Index.main, Index.load_db, bind, ret.
    by rewrite !bool_decide_eq_false_2. }
  split; [|split; [exact Hother|split; [|split]]].
  - intros c Hc Hlist. apply Hother; [|done].
    intros ->. apply list_elem_of_In in Hc. simpl in Hc.
    repeat destruct Hc as [Hc|Hc]; done.
  - unfold Index.main, Index.load_db, bind at 1, ret at 1.
    by rewrite bool_decide_eq_false_2.
  - unfold Index.main, Index.load_db, bind, ret.
    by rewrite bool_decide_eq_false_2.
  - unfold Index.main, Index.load_db, bind, ret.
    by rewrite bool_decide_eq_false_2.
Qed.

(** Without DB_FILE (unset or empty) every run of the program ends in
    the error 'DB_FILE is not defined in environment variables.', thrown
    while db.ts is loaded: no command is looked at, not even the missing one
    that would bring the list of commands, and the file is not touched. *)
Theorem Index_main_without_DB_FILE (command : option string) (w : World) :
  filename = EmptyString ->
  Index.main command w =
    (Throw (Error "DB_FILE is not defined in environment variables."), w).
Proof.
  intros Hunset. unfold Index.main, Index.load_db, bind, throw.
  by rewrite bool_decide_eq_true_2.
Qed.

End CommandLine.

Lemma Action_list_shows_witness :
  let w := Sample.disk Sample.chores in
  stores w Sample.chores /\
  Action.list w =
    (Return (Action.Table (Task.Raw Sample.chores)),
     after_calls [existsSync_call; readFileSync_call] w) /\
  (exists w',
     Action.list Sample.blank =
       (Return (Action.Warning "there is not any task"), w') /\
     file w' = Some "[]").
Proof.
  intros w. assert (Hst : stores w Sample.chores) by apply stores_disk.
  destruct (Action_list_shows w) as (Hstored & _).
  destruct (Action_list_shows Sample.blank) as (_ & _ & _ & Habsent).
  split; [exact Hst|]. split; [exact (Hstored Sample.chores Hst)|].
  exact (Habsent eq_refl eq_refl).
Defined.

Lemma Index_main_dispatch_witness :
  let w := Sample.disk Sample.chores in
  filename <> EmptyString /\
  Index.main (Some "add") w = (Return Index.Nothing, w) /\
  Index.main (Some "delete-all") w = (Return Index.Nothing, w) /\
  Index.main None w =
    (Return (Index.Usage "you must enter a command" "available command are:"
               Index.commands), w).
Proof.
  intros w.
  assert (Hset : filename <> EmptyString) by discriminate.
  destruct (Index_main_dispatch w Hset) as (Hcommands & _ & _ & Hnone & _).
  split; [exact Hset|]. split; [|split; [|exact Hnone]].
  - apply Hcommands; [|discriminate]. apply list_elem_of_In. simpl. auto.
  - apply Hcommands; [|discriminate]. apply list_elem_of_In. simpl. auto 10.
Defined.

Lemma Index_main_without_DB_FILE_witness :
  @filename Sample.without_DB_FILE = EmptyString /\
  @Index.main Sample.without_DB_FILE None Sample.blank =
    (Throw (Error "DB_FILE is not defined in environment variables."),
     Sample.blank) /\
  @Index.main Sample.without_DB_FILE (Some "list") Sample.blank =
    (Throw (Error "DB_FILE is not defined in environment variables."),
     Sample.blank).
Proof.
  split; [reflexivity|]. split.
  - exact (@Index_main_without_DB_FILE Sample.without_DB_FILE None Sample.blank
             eq_refl).
  - exact (@Index_main_without_DB_FILE Sample.without_DB_FILE (Some "list")
             Sample.blank eq_refl).
Defined.
